(** * pyb_utils: the collision-detection example script

    A shallow embedding of [scripts/collision_detection_example.py].  The
    script is orchestration over the pybullet API: every call into the
    simulator is an event of an interaction tree, the [while True] loop is
    [ITree.forever], and the behaviour of the simulator is a parameter (a
    response function over an arbitrary world).  Runs are observed through
    the log of calls they make, with the value each call returned. *)

From Stdlib Require Import ZArith List String Bool Lia Floats Wf_nat.
From ITree Require Import ITree Eq.Shallow.
Import ListNotations.
Import ITreeNotations.
Local Open Scope string_scope.
Local Open Scope Z_scope.
Local Open Scope itree_scope.
Local Open Scope list_scope.

Set Implicit Arguments.
Set Warnings "-inexact-float".

(** ** Python values *)

(** A numeric literal of the script: Python keeps [0] and [0.5] apart. *)
Inductive pynum : Type :=
| PyInt (z : Z)
| PyFloat (f : float).

(** [np.pi], the double nearest to pi. *)
Definition np_pi : float := 0x1.921fb54442d18p+1%float.

(** A dict with string keys and integer values, in insertion order. *)
Definition dict : Type := list (string * Z).

Fixpoint dict_lookup (d : dict) (k : string) : option Z :=
  match d with
  | [] => None
  | (k', v) :: d' => if String.eqb k' k then Some v else dict_lookup d' k
  end.

Definition keys (d : dict) : list string := map fst d.

(** [range(n)] for an integer [n]: empty when [n <= 0]. *)
Definition range (n : Z) : list Z := map Z.of_nat (seq 0 (Z.to_nat n)).

(** [a[i]] on a one-dimensional array: a negative index counts from the
    end, and an index outside the array has no value (IndexError). *)
Definition array_get (a : list float) (i : Z) : option float :=
  let len := Z.of_nat (List.length a) in
  if (0 <=? i) && (i <? len) then nth_error a (Z.to_nat i)
  else if (i <? 0) && (- len <=? i) then nth_error a (Z.to_nat (len + i))
  else None.

(** Exceptions: the two the script's own indexing can raise, and whatever
    the external library raises. *)
Inductive pyexn : Type :=
| IndexError
| KeyError (key : string)
| pybullet_error (msg : string)
| KeyboardInterrupt.

(** ** The collision helper's data *)

(** Modelled from the spec: [pyb_utils.collision.NamedCollisionObject] is
    not among the sources; the glossary gives it as a (body, optional
    link) reference naming what to measure distance between. *)
Record NamedCollisionObject : Type := mkNamedCollisionObject {
  body_name : string;
  link_name : option string
}.

(** Modelled from the spec: [pyb_utils.collision.CollisionDetector] is not
    among the sources; it is built from the headless session's client id,
    that session's body mapping, and the list of pairs to monitor. *)
Record CollisionDetector : Type := mkCollisionDetector {
  det_client : Z;
  det_bodies : dict;
  det_pairs : list (NamedCollisionObject * NamedCollisionObject)
}.

(** ** Calls into the environment *)

Inductive connection_mode : Type := GUI | DIRECT.

(** One constructor per external function the script calls, with the
    arguments the script passes.  [readUserDebugParameter] and
    [addUserDebugText] are called without [physicsClientId]. *)
Inductive call : Type :=
| connect (method : connection_mode)
| getDataPath
| setAdditionalSearchPath (path : string) (physicsClientId : Z)
| loadURDF (fileName : string) (basePosition : list pynum)
           (useFixedBase : bool) (physicsClientId : Z)
| addUserDebugParameter (paramName : string)
                        (rangeMin rangeMax startValue : pynum)
                        (physicsClientId : Z)
| readUserDebugParameter (itemUniqueId : Z)
| getNumJoints (bodyUniqueId : Z) (physicsClientId : Z)
| resetJointState (bodyUniqueId jointIndex : Z) (targetValue : float)
                  (physicsClientId : Z)
| addUserDebugText (text : string) (textPosition textColorRGB : list pynum)
                   (textSize lifeTime : pynum)
| stepSimulation (physicsClientId : Z)
| query_distances (detector : CollisionDetector) (q : list float)
| print (prefix : string) (d : list float).

(** The type of the value a call returns. *)
Definition ret_type (c : call) : Type :=
  match c with
  | connect _ => Z
  | getDataPath => string
  | setAdditionalSearchPath _ _ => unit
  | loadURDF _ _ _ _ => Z
  | addUserDebugParameter _ _ _ _ _ => Z
  | readUserDebugParameter _ => float
  | getNumJoints _ _ => Z
  | resetJointState _ _ _ _ => unit
  | addUserDebugText _ _ _ _ _ => Z
  | stepSimulation _ => unit
  | query_distances _ _ => list float
  | print _ _ => unit
  end.

(** The events of the script: a call, or an exception raised by the
    script's own indexing. *)
Variant pyE : Type -> Type :=
| Call (c : call) : pyE (ret_type c)
| Raise (e : pyexn) : pyE Empty_set.

Definition script (A : Type) : Type := itree pyE A.

Definition do_call (c : call) : script (ret_type c) := ITree.trigger (Call c).

Definition raise {A : Type} (e : pyexn) : script A :=
  Vis (Raise e) (fun x : Empty_set => match x with end).

(** [d[k]] on a dict. *)
Definition getitem (d : dict) (k : string) : script Z :=
  match dict_lookup d k with
  | Some v => Ret v
  | None => raise (KeyError k)
  end.

(** [state[i]] on an array. *)
Definition index (state : list float) (i : Z) : script float :=
  match array_get state i with
  | Some v => Ret v
  | None => raise IndexError
  end.

(** A [for] loop over a list. *)
Fixpoint for_each {A : Type} (l : list A) (body : A -> script unit)
  : script unit :=
  match l with
  | [] => Ret tt
  | x :: l' => body x ;; for_each l' body
  end.

(** ** The collision helper's queries *)

(** Modelled from the spec: [CollisionDetector.compute_distances] is not
    among the sources; it asks the headless session for the pairwise
    shortest distances of the monitored pairs at configuration [q].  The
    geometry is the simulator's: one opaque query. *)
Definition compute_distances (det : CollisionDetector) (q : list float)
  : script (list float) :=
  do_call (query_distances det q).

(** The smallest of a list of distances. *)
Definition fmin (a b : float) : float := if PrimFloat.ltb b a then b else a.

Definition minimum (ds : list float) : option float :=
  match ds with
  | [] => None
  | d :: ds' => Some (fold_left fmin ds' d)
  end.

(** Modelled from the spec: the collision flag for given distances and
    margin: the computed minimum distance is less than the margin. *)
Definition too_close (ds : list float) (margin : float) : bool :=
  match minimum ds with
  | Some m => PrimFloat.ltb m margin
  | None => false
  end.

(** Modelled from the spec: [CollisionDetector.in_collision] is not among
    the sources; it computes the distances at [q] and reports whether the
    minimum is below the margin. *)
Definition in_collision (det : CollisionDetector) (q : list float)
           (margin : float) : script bool :=
  ds <- compute_distances det q ;;
  Ret (too_close ds margin).

(** ** The script *)

Definition load_environment (client_id : Z) : script dict :=
  path <- do_call getDataPath ;;
  do_call (setAdditionalSearchPath path client_id) ;;
  ground_id <- do_call (loadURDF "plane.urdf" [PyInt 0; PyInt 0; PyInt 0]
                                 true client_id) ;;
  kuka_id <- do_call (loadURDF "kuka_iiwa/model.urdf"
                               [PyInt 0; PyInt 0; PyInt 0]
                               true client_id) ;;
  cube1_id <- do_call (loadURDF "cube.urdf"
                                [PyInt 1; PyInt 1; PyFloat 0.5]
                                true client_id) ;;
  cube2_id <- do_call (loadURDF "cube.urdf"
                                [PyInt (-1); PyInt (-1); PyFloat 0.5]
                                true client_id) ;;
  cube3_id <- do_call (loadURDF "cube.urdf"
                                [PyInt 1; PyInt (-1); PyFloat 0.5]
                                true client_id) ;;
  Ret [("robot", kuka_id);
       ("ground", ground_id);
       ("cube1", cube1_id);
       ("cube2", cube2_id);
       ("cube3", cube3_id)].

(** A joint slider: [-2*np.pi] to [2*np.pi], starting at [0]. *)
Definition joint_slider (name : string) (gui_id : Z) : call :=
  addUserDebugParameter name
    (PyFloat (-2 * np_pi)%float) (PyFloat (2 * np_pi)%float) (PyInt 0) gui_id.

Definition create_user_debug_params (gui_id : Z) : script dict :=
  margin <- do_call (addUserDebugParameter "collision_margin"
                       (PyInt 0) (PyFloat 0.2) (PyFloat 0.01) gui_id) ;;
  j1 <- do_call (joint_slider "lbr_iiwa_joint1" gui_id) ;;
  j2 <- do_call (joint_slider "lbr_iiwa_joint2" gui_id) ;;
  j3 <- do_call (joint_slider "lbr_iiwa_joint3" gui_id) ;;
  j4 <- do_call (joint_slider "lbr_iiwa_joint4" gui_id) ;;
  j5 <- do_call (joint_slider "lbr_iiwa_joint5" gui_id) ;;
  j6 <- do_call (joint_slider "lbr_iiwa_joint6" gui_id) ;;
  j7 <- do_call (joint_slider "lbr_iiwa_joint7" gui_id) ;;
  Ret [("collision_margin", margin);
       ("lbr_iiwa_joint1", j1);
       ("lbr_iiwa_joint2", j2);
       ("lbr_iiwa_joint3", j3);
       ("lbr_iiwa_joint4", j4);
       ("lbr_iiwa_joint5", j5);
       ("lbr_iiwa_joint6", j6);
       ("lbr_iiwa_joint7", j7)].

Definition update_robot_state (robot_id : Z) (state : list float)
           (physicsClientId : Z) : script unit :=
  n <- do_call (getNumJoints robot_id physicsClientId) ;;
  for_each (range n) (fun joint_idx =>
    v <- index state joint_idx ;;
    do_call (resetJointState robot_id joint_idx v physicsClientId)).

(** What [main] has built when it enters the loop. *)
Record loop_env : Type := mkLoopEnv {
  gui_id : Z;
  col_id : Z;
  user_params : dict;
  bodies : dict;
  collision_bodies : dict;
  col_detector : CollisionDetector;
  robot_id : Z
}.

Definition ground : NamedCollisionObject := mkNamedCollisionObject "ground" None.
Definition cube1 : NamedCollisionObject := mkNamedCollisionObject "cube1" None.
Definition cube2 : NamedCollisionObject := mkNamedCollisionObject "cube2" None.
Definition cube3 : NamedCollisionObject := mkNamedCollisionObject "cube3" None.
Definition link7 : NamedCollisionObject :=
  mkNamedCollisionObject "robot" (Some "lbr_iiwa_link_7").

(** [main] up to the loop. *)
Definition main_setup : script loop_env :=
  gui <- do_call (connect GUI) ;;
  col <- do_call (connect DIRECT) ;;
  params <- create_user_debug_params gui ;;
  bs <- load_environment gui ;;
  cbs <- load_environment col ;;
  let detector :=
    mkCollisionDetector col cbs
      [(link7, ground); (link7, cube1); (link7, cube2); (link7, cube3)] in
  robot <- getitem bs "robot" ;;
  Ret (mkLoopEnv gui col params bs cbs detector robot).

(** [pyb.readUserDebugParameter(user_params[name])]. *)
Definition read_slider (params : dict) (name : string) : script float :=
  h <- getitem params name ;;
  do_call (readUserDebugParameter h).

(** The red warning of the [else] branch. *)
Definition warning_text : call :=
  addUserDebugText "Avoiding collision"
    [PyInt 0; PyInt 0; PyFloat 1.5] [PyInt 1; PyInt 0; PyInt 0]
    (PyInt 2) (PyFloat 0.2).

(** The body of the [while True] loop. *)
Definition loop_body (env : loop_env) : script unit :=
  q1 <- read_slider (user_params env) "lbr_iiwa_joint1" ;;
  q2 <- read_slider (user_params env) "lbr_iiwa_joint2" ;;
  q3 <- read_slider (user_params env) "lbr_iiwa_joint3" ;;
  q4 <- read_slider (user_params env) "lbr_iiwa_joint4" ;;
  q5 <- read_slider (user_params env) "lbr_iiwa_joint5" ;;
  q6 <- read_slider (user_params env) "lbr_iiwa_joint6" ;;
  q7 <- read_slider (user_params env) "lbr_iiwa_joint7" ;;
  let q := [q1; q2; q3; q4; q5; q6; q7] in
  d <- compute_distances (col_detector env) q ;;
  margin <- read_slider (user_params env) "collision_margin" ;;
  in_col <- in_collision (col_detector env) q margin ;;
  (if negb in_col
   then update_robot_state (robot_id env) q (gui_id env)
   else (do_call warning_text ;; Ret tt)) ;;
  do_call (print "Distance to obstacles = " d) ;;
  do_call (stepSimulation (gui_id env)).

(** The [while True] loop. *)
Definition main_loop (env : loop_env) : script unit :=
  ITree.forever (loop_body env).

Definition main : script unit :=
  env <- main_setup ;;
  main_loop env.

(** ** Running a script against a simulator *)

(** One line of the log: a call that returned, a call that raised, or an
    exception raised by the script's own indexing. *)
Inductive entry : Type :=
| Returned (c : call) (v : ret_type c)
| Threw (c : call) (e : pyexn)
| ScriptRaised (e : pyexn).

Definition trace : Type := list entry.

(** How a run stands when observed: finished with a value, stopped by a
    propagated exception, or still going when the observer's patience
    (fuel) ran out. *)
Inductive outcome (W A : Type) : Type :=
| Done (a : A) (w : W) (fuel_left : nat)
| Failed (e : pyexn) (w : W)
| Going (w : W).

Arguments Done {W A} a w fuel_left.
Arguments Failed {W A} e w.
Arguments Going {W A} w.

Section Run.

(** The simulator: a world, and for every call either an exception or a
    returned value with the world after the call. *)
Variable W : Type.
Variable respond : forall c : call, W -> pyexn + (ret_type c * W).

(** One event, given the run of the rest. *)
Definition step_event {A X : Type} (e : pyE X)
  : (X -> W -> trace * outcome W A) -> W -> trace * outcome W A :=
  match e in pyE X
        return (X -> W -> trace * outcome W A) -> W -> trace * outcome W A
  with
  | Call c => fun rest w =>
      match respond c w with
      | inl exn => ([Threw c exn], Failed exn w)
      | inr (v, w') =>
          let (tr, o) := rest v w' in (Returned c v :: tr, o)
      end
  | Raise exn => fun _ w => ([ScriptRaised exn], Failed exn w)
  end.

(** Run a script for at most [fuel] events and loop turns. *)
Fixpoint exec {A : Type} (fuel : nat) (t : script A) (w : W)
  : trace * outcome W A :=
  match observe t with
  | RetF a => ([], Done a w fuel)
  | TauF t' =>
      match fuel with
      | O => ([], Going w)
      | S f => exec f t' w
      end
  | VisF e k =>
      match fuel with
      | O => ([], Going w)
      | S f => step_event e (fun x => exec f (k x)) w
      end
  end.

(** Sequencing of runs: the second part starts where the first one
    finished, with the fuel it left. *)
Definition and_then {A B : Type} (r : trace * outcome W A)
           (k : A -> nat -> W -> trace * outcome W B)
  : trace * outcome W B :=
  match r with
  | (tr, Done a w f) => let (tr', o) := k a f w in (tr ++ tr', o)
  | (tr, Failed e w) => (tr, Failed e w)
  | (tr, Going w) => (tr, Going w)
  end.

(** [always P Q t]: whatever the simulator answers and however long the
    run is observed, every line logged by [t] satisfies [P], and a value
    [t] returns satisfies [Q]. *)
Definition always {A : Type} (P : entry -> Prop) (Q : A -> Prop)
           (t : script A) : Prop :=
  forall fuel w,
    Forall P (fst (exec fuel t w)) /\
    (forall a w' f, snd (exec fuel t w) = Done a w' f -> Q a).

End Run.

(** The loop after [n] turns: [n] turns of the body, each followed by the
    jump back, and then the loop again. *)
Fixpoint after_turns (n : nat) (env : loop_env) : script unit :=
  match n with
  | O => main_loop env
  | S n' => loop_body env ;; Tau (after_turns n' env)
  end.

(** ** What the parts of the script log when they finish *)

(** The identifiers the simulator gave the five bodies of one session. *)
Record body_ids : Type := mkBodyIds {
  ground_body : Z;
  kuka_body : Z;
  cube1_body : Z;
  cube2_body : Z;
  cube3_body : Z
}.

Definition environment_log (client : Z) (path : string) (ids : body_ids)
  : trace :=
  [Returned getDataPath path;
   Returned (setAdditionalSearchPath path client) tt;
   Returned (loadURDF "plane.urdf" [PyInt 0; PyInt 0; PyInt 0] true client)
            (ground_body ids);
   Returned (loadURDF "kuka_iiwa/model.urdf" [PyInt 0; PyInt 0; PyInt 0]
                      true client)
            (kuka_body ids);
   Returned (loadURDF "cube.urdf" [PyInt 1; PyInt 1; PyFloat 0.5]
                      true client)
            (cube1_body ids);
   Returned (loadURDF "cube.urdf" [PyInt (-1); PyInt (-1); PyFloat 0.5]
                      true client)
            (cube2_body ids);
   Returned (loadURDF "cube.urdf" [PyInt 1; PyInt (-1); PyFloat 0.5]
                      true client)
            (cube3_body ids)].

Definition bodies_of (ids : body_ids) : dict :=
  [("robot", kuka_body ids);
   ("ground", ground_body ids);
   ("cube1", cube1_body ids);
   ("cube2", cube2_body ids);
   ("cube3", cube3_body ids)].

Definition joint_names : list string :=
  ["lbr_iiwa_joint1"; "lbr_iiwa_joint2"; "lbr_iiwa_joint3";
   "lbr_iiwa_joint4"; "lbr_iiwa_joint5"; "lbr_iiwa_joint6";
   "lbr_iiwa_joint7"].

(** The slider dict, given the item ids of the margin slider and of the
    joint sliders. *)
Definition params_of (margin_item : Z) (joint_items : list Z) : dict :=
  ("collision_margin", margin_item) :: combine joint_names joint_items.

Definition sliders_log (gui : Z) (margin_item : Z) (joint_items : list Z)
  : trace :=
  Returned (addUserDebugParameter "collision_margin"
              (PyInt 0) (PyFloat 0.2) (PyFloat 0.01) gui) margin_item
  :: map (fun p => Returned (joint_slider (fst p) gui) (snd p))
         (combine joint_names joint_items).

Definition monitored_pairs
  : list (NamedCollisionObject * NamedCollisionObject) :=
  [(link7, ground); (link7, cube1); (link7, cube2); (link7, cube3)].

(** Slider reads, item by item, with the values read. *)
Definition reads_log (items : list Z) (values : list float) : trace :=
  map (fun p => Returned (readUserDebugParameter (fst p)) (snd p))
      (combine items values).

(** Joint writes, index by index, with the values written. *)
Definition resets_log (robot client : Z) (idx : list Z) (values : list float)
  : trace :=
  map (fun p => Returned (resetJointState robot (fst p) (snd p) client) tt)
      (combine idx values).

(** What the branch of one loop turn logs: the warning when colliding,
    otherwise the joint count and one write per joint. *)
Definition branch_log (env : loop_env) (q : list float) (colliding : bool)
           (branch : trace) : Prop :=
  if colliding
  then exists item, branch = [Returned warning_text item]
  else exists n, n <= 7 /\
         branch = Returned (getNumJoints (robot_id env) (gui_id env)) n
                  :: resets_log (robot_id env) (gui_id env) (range n) q.

(** The log of one finished loop turn, from what the sliders and the
    distance queries answered. *)
Definition turn_log (env : loop_env) (joint_items : list Z) (margin_item : Z)
           (q d : list float) (margin : float) (ds : list float)
           (branch : trace) : trace :=
  reads_log joint_items q
  ++ [Returned (query_distances (col_detector env) q) d;
      Returned (readUserDebugParameter margin_item) margin;
      Returned (query_distances (col_detector env) q) ds]
  ++ branch
  ++ [Returned (print "Distance to obstacles = " d) tt;
      Returned (stepSimulation (gui_id env)) tt].

(** ** What a log shows *)

Definition call_of (e : entry) : option call :=
  match e with
  | Returned c _ => Some c
  | Threw c _ => Some c
  | ScriptRaised _ => None
  end.

(** An asset placed in a scene: file, base position, fixed base. *)
Definition asset : Type := (string * list pynum * bool)%type.

(** A successful [loadURDF]: the asset, the session, the body id given. *)
Definition load_of (e : entry) : option (asset * Z * Z) :=
  match e with
  | Returned c v =>
      match c as c0 return ret_type c0 -> option (asset * Z * Z) with
      | loadURDF file pos fixed client =>
          fun id => Some ((file, pos, fixed), client, id)
      | _ => fun _ => None
      end v
  | _ => None
  end.

Definition loads (tr : trace) : list (asset * Z * Z) :=
  flat_map (fun e => match load_of e with Some l => [l] | None => [] end) tr.

(** The asset loaded as body [body] of session [client], if any. *)
Definition placed (tr : trace) (client body : Z) : option asset :=
  match find (fun l => Z.eqb (snd (fst l)) client && Z.eqb (snd l) body)
             (loads tr) with
  | Some l => Some (fst (fst l))
  | None => None
  end.

(** The scene of a session: for each name of its body mapping, the asset
    loaded as the body the name is bound to. *)
Definition scene (tr : trace) (client : Z) (bs : dict)
  : list (string * option asset) :=
  map (fun p => (fst p, placed tr client (snd p))) bs.

(** Kinds of log lines: a joint write, a warning text, a slider read, a
    simulation step, a distance query. *)
Definition is_pose_write (e : entry) : bool :=
  match call_of e with
  | Some (resetJointState _ _ _ _) => true
  | _ => false
  end.

Definition is_warning (e : entry) : bool :=
  match call_of e with
  | Some (addUserDebugText _ _ _ _ _) => true
  | _ => false
  end.

Definition is_slider_read (e : entry) : bool :=
  match call_of e with
  | Some (readUserDebugParameter _) => true
  | _ => false
  end.

Definition is_step (e : entry) : bool :=
  match call_of e with
  | Some (stepSimulation _) => true
  | _ => false
  end.

(** The colour of a debug text. *)
Definition colour_of (c : call) : list pynum :=
  match c with
  | addUserDebugText _ _ rgb _ _ => rgb
  | _ => []
  end.

Definition red : list pynum := [PyInt 1; PyInt 0; PyInt 0].

(** The four steps of a loop turn as the specification numbers them: 1
    reading sliders, 2 querying the collision helper, 3 the branch (pose
    or warning), 4 stepping the simulation.  Printing is none of them. *)
Definition phase_of (e : entry) : option nat :=
  match call_of e with
  | Some (readUserDebugParameter _) => Some 1%nat
  | Some (query_distances _ _) => Some 2%nat
  | Some (getNumJoints _ _) => Some 3%nat
  | Some (resetJointState _ _ _ _) => Some 3%nat
  | Some (addUserDebugText _ _ _ _ _) => Some 3%nat
  | Some (stepSimulation _) => Some 4%nat
  | _ => None
  end.

Definition phases (tr : trace) : list nat :=
  flat_map (fun e => match phase_of e with Some p => [p] | None => [] end) tr.

Fixpoint nondecreasing (l : list nat) : bool :=
  match l with
  | a :: (b :: _) as l' => Nat.leb a b && nondecreasing l'
  | _ => true
  end.

(** A log goes through the four steps in order, with one step of the
    simulation. *)
Definition in_numbered_order (tr : trace) : bool :=
  nondecreasing (phases tr)
  && Nat.eqb (List.length (filter is_step tr)) 1.

(** The order of a loop turn as the specification words it: every finished
    turn of the loop [main] runs goes through the four steps in order. *)
Definition turns_in_numbered_order : Prop :=
  forall (W : Type) (respond : forall c : call, W -> pyexn + (ret_type c * W))
         fuel0 w0 tr0 env w1 f1 fuel w tr u w' f,
    exec respond fuel0 main_setup w0 = (tr0, Done env w1 f1) ->
    exec respond fuel (loop_body env) w = (tr, Done u w' f) ->
    in_numbered_order tr = true.

(** The session a pybullet call of the script is addressed to: the
    [physicsClientId] it passes, or pybullet's default client [0] where the
    script passes none.  [connect], [getDataPath] and [print] address no
    session, and a query of the collision helper is the helper's call, not
    the script's. *)
Definition default_client : Z := 0.

Definition session_of (c : call) : option Z :=
  match c with
  | setAdditionalSearchPath _ s => Some s
  | loadURDF _ _ _ s => Some s
  | addUserDebugParameter _ _ _ _ s => Some s
  | getNumJoints _ s => Some s
  | resetJointState _ _ _ s => Some s
  | stepSimulation s => Some s
  | readUserDebugParameter _ => Some default_client
  | addUserDebugText _ _ _ _ _ => Some default_client
  | connect _ => None
  | getDataPath => None
  | print _ _ => None
  | query_distances _ _ => None
  end.

(** The lines a loop turn can log: calls on the GUI session, slider reads
    and the warning text, the print, and queries through the detector
    [main] built. *)
Definition turn_line (env : loop_env) (e : entry) : Prop :=
  match call_of e with
  | Some (stepSimulation s) => s = gui_id env
  | Some (getNumJoints body s) => body = robot_id env /\ s = gui_id env
  | Some (resetJointState body _ _ s) => body = robot_id env /\ s = gui_id env
  | Some (readUserDebugParameter _) => True
  | Some (addUserDebugText _ _ _ _ _) => True
  | Some (print _ _) => True
  | Some (query_distances det _) => det = col_detector env
  | Some _ => False
  | None => True
  end.

(** A line that is not a pybullet call addressed to session [s]. *)
Definition leaves_alone (s : Z) (e : entry) : Prop :=
  match call_of e with
  | Some c => session_of c <> Some s
  | None => True
  end.

(** A distance query is made with the four pairs of [main]. *)
Definition queries_monitored_pairs (e : entry) : Prop :=
  match call_of e with
  | Some (query_distances det _) =>
      det_pairs det
      = [(link7, ground); (link7, cube1); (link7, cube2); (link7, cube3)]
  | _ => True
  end.

(** The exception a log line raises, if it is a raise. *)
Definition raises (e : entry) : option pyexn :=
  match e with
  | Returned _ _ => None
  | Threw _ exn => Some exn
  | ScriptRaised exn => Some exn
  end.

(** Nothing is caught: a raise is the last line of the log, and the run
    has failed with the exception raised. *)
Definition uncaught {W A : Type} (r : trace * outcome W A) : Prop :=
  forall x exn,
    In x (fst r) -> raises x = Some exn ->
    (exists w, snd r = Failed exn w) /\
    exists before,
      fst r = before ++ [x] /\ Forall (fun y => raises y = None) before.

(** The only exception the script's own indexing raises is the
    IndexError of the array indexing. *)
Definition only_index_errors (e : entry) : Prop :=
  match e with
  | ScriptRaised exn => exn = IndexError
  | _ => True
  end.

(** A run that is still going, or was stopped by an exception raised by an
    external call or by the array indexing, on the last line of its log. *)
Definition runs_on_or_fails {W A : Type} (r : trace * outcome W A) : Prop :=
  match snd r with
  | Done _ _ _ => False
  | Going _ => True
  | Failed exn _ =>
      exists before x,
        fst r = before ++ [x] /\
        ((exists c, x = Threw c exn) \/
         (x = ScriptRaised IndexError /\ exn = IndexError))
  end.

(** A line that is not an IndexError of the script's indexing. *)
Definition no_index_error (e : entry) : Prop :=
  match e with
  | ScriptRaised IndexError => False
  | _ => True
  end.

(** A run that has not returned. *)
Definition unfinished {W A : Type} (o : outcome W A) : Prop :=
  match o with
  | Done _ _ _ => False
  | Failed _ _ => True
  | Going _ => True
  end.

(** The scene the script describes, by body name. *)
Definition fixed_scene : list (string * option asset) :=
  [("robot", Some ("kuka_iiwa/model.urdf", [PyInt 0; PyInt 0; PyInt 0], true));
   ("ground", Some ("plane.urdf", [PyInt 0; PyInt 0; PyInt 0], true));
   ("cube1", Some ("cube.urdf", [PyInt 1; PyInt 1; PyFloat 0.5], true));
   ("cube2", Some ("cube.urdf", [PyInt (-1); PyInt (-1); PyFloat 0.5], true));
   ("cube3", Some ("cube.urdf", [PyInt 1; PyInt (-1); PyFloat 0.5], true))].

(** ** Lines of the helper functions *)

(** The lines [load_environment client] can log: the data path, and the
    search path and fixed-base loads of that session. *)
Definition load_line (client : Z) (e : entry) : Prop :=
  match call_of e with
  | Some getDataPath => True
  | Some (setAdditionalSearchPath _ s) => s = client
  | Some (loadURDF _ _ fixed s) => fixed = true /\ s = client
  | _ => False
  end.

(** The lines [create_user_debug_params gui] can log: sliders created on
    that session. *)
Definition slider_line (gui : Z) (e : entry) : Prop :=
  match call_of e with
  | Some (addUserDebugParameter _ _ _ _ s) => s = gui
  | _ => False
  end.

(** The lines [update_robot_state robot state client] can log: the joint
    count and joint writes of that robot in that session, at indices from
    0, and the IndexError of indexing [state]. *)
Definition joint_line (robot client : Z) (e : entry) : Prop :=
  match e with
  | ScriptRaised exn => exn = IndexError
  | _ =>
      match call_of e with
      | Some (getNumJoints body s) => body = robot /\ s = client
      | Some (resetJointState body i _ s) =>
          body = robot /\ s = client /\ 0 <= i
      | _ => False
      end
  end.

(** The calls [main] makes before its loop. *)
Definition is_setup_call (c : call) : bool :=
  match c with
  | connect _ => true
  | getDataPath => true
  | setAdditionalSearchPath _ _ => true
  | loadURDF _ _ _ _ => true
  | addUserDebugParameter _ _ _ _ _ => true
  | _ => false
  end.

(** A line of the setup: one of its calls, returned or raised. *)
Definition setup_line (e : entry) : Prop :=
  match call_of e with
  | Some c => is_setup_call c = true
  | None => False
  end.

(** The lines of the collision check of a loop turn: slider reads and
    distance queries. *)
Definition check_line (e : entry) : Prop :=
  match call_of e with
  | Some (readUserDebugParameter _) => True
  | Some (query_distances _ _) => True
  | _ => False
  end.

(** A log that starts with a whole collision check (seven joint reads, the
    distance query, the margin read, the query for the collision flag, all
    answered) and goes on with lines among which, when the flag is set,
    none is a joint write and, when it is not, none is a warning. *)
Definition checked_then_acts (env : loop_env) (joint_items : list Z)
           (margin_item : Z) (tr : trace) : Prop :=
  exists q d margin ds rest,
    List.length q = 7%nat /\
    tr = reads_log joint_items q
         ++ [Returned (query_distances (col_detector env) q) d;
             Returned (readUserDebugParameter margin_item) margin;
             Returned (query_distances (col_detector env) q) ds]
         ++ rest /\
    if too_close ds margin
    then Forall (fun e => is_pose_write e = false) rest
    else Forall (fun e => is_warning e = false) rest.

(** [gated respond L R t]: the log of any run of [t] either has only lines
    satisfying [L], or satisfies [R]. *)
Definition gated {W A : Type}
           (respond : forall c : call, W -> pyexn + (ret_type c * W))
           (L : entry -> Prop) (R : trace -> Prop) (t : script A) : Prop :=
  forall fuel w,
    Forall L (fst (exec respond fuel t w)) \/ R (fst (exec respond fuel t w)).

(** [finishes respond fuel fuel' t]: from any state of the simulator, [t]
    returns, using [fuel - fuel'] of its fuel. *)
Definition finishes {W A : Type}
           (respond : forall c : call, W -> pyexn + (ret_type c * W))
           (fuel fuel' : nat) (t : script A) : Prop :=
  forall w, exists tr a w', exec respond fuel t w = (tr, Done a w' fuel').

(** ** Turns that come to an end, and runs that fail *)

(** The calls a loop turn makes. *)
Definition is_turn_call (c : call) : bool :=
  match c with
  | readUserDebugParameter _ => true
  | query_distances _ _ => true
  | getNumJoints _ _ => true
  | resetJointState _ _ _ _ => true
  | addUserDebugText _ _ _ _ _ => true
  | print _ _ => true
  | stepSimulation _ => true
  | _ => false
  end.

Definition is_query (e : entry) : bool :=
  match call_of e with
  | Some (query_distances _ _) => true
  | _ => false
  end.

(** [settles respond n t]: on any simulator, [t] takes at most [n] events:
    observed for [n] events and [fuel] more, it has returned with at least
    [fuel] left, or it has failed; it is not still going. *)
Definition settles {W A : Type}
           (respond : forall c : call, W -> pyexn + (ret_type c * W))
           (n : nat) (t : script A) : Prop :=
  forall fuel w,
    match snd (exec respond (n + fuel) t w) with
    | Done _ _ f => (fuel <= f)%nat
    | Failed _ _ => True
    | Going _ => False
    end.

(** A loop turn that has come to its end: it has returned, or it was
    stopped on the last line of its log, either by a call of the turn
    that the simulator refused, or by the IndexError of the array indexing
    when the GUI session reports more than seven joints for the robot. *)
Definition turn_settled {W : Type}
           (respond : forall c : call, W -> pyexn + (ret_type c * W))
           (env : loop_env) (r : trace * outcome W unit) : Prop :=
  match snd r with
  | Done _ _ _ => True
  | Going _ => False
  | Failed exn _ =>
      exists before x,
        fst r = before ++ [x] /\
        ((exists c w, x = Threw c exn /\ is_turn_call c = true /\
                      respond c w = inl exn) \/
         (x = ScriptRaised IndexError /\ exn = IndexError /\
          exists n w w',
            respond (getNumJoints (robot_id env) (gui_id env)) w
            = inr (n, w') /\ 7 < n))
  end.

(** A simulator that answers every call a turn makes, and reports at most
    seven joints for the robot of the GUI session. *)
Definition answers_turns {W : Type}
           (respond : forall c : call, W -> pyexn + (ret_type c * W))
           (env : loop_env) : Prop :=
  (forall c w, is_turn_call c = true ->
               exists v w', respond c w = inr (v, w')) /\
  (forall w n w',
      respond (getNumJoints (robot_id env) (gui_id env)) w = inr (n, w') ->
      n <= 7).

(** [fails_at full tr exn]: the log [tr] is the log [full] up to one of its
    calls, with that call raising [exn] instead of returning. *)
Definition fails_at (full tr : trace) (exn : pyexn) : Prop :=
  exists before c v rest,
    full = before ++ Returned c v :: rest /\ tr = before ++ [Threw c exn].

(** [breaks respond t F]: every failed run of [t] has a log and an
    exception satisfying [F]. *)
Definition breaks {W A : Type}
           (respond : forall c : call, W -> pyexn + (ret_type c * W))
           (t : script A) (F : trace -> pyexn -> Prop) : Prop :=
  forall fuel w tr exn w',
    exec respond fuel t w = (tr, Failed exn w') -> F tr exn.

(** ** A small simulator, to run the script on concrete inputs *)

Module Sim.

(** The sessions connected so far, the assets loaded in each, the number
    of debug items created, and what the user and the geometry answer:
    the slider values by item id and the distances of a query. *)
Record world : Type := mkWorld {
  sessions : Z;
  loaded : list (Z * string);
  items : Z;
  sliders : list float;
  distances : list float
}.

Definition bodies_in (client : Z) (w : world) : list string :=
  map snd (filter (fun p => Z.eqb (fst p) client) (loaded w)).

Definition joints_of (file : string) : Z :=
  if String.eqb file "kuka_iiwa/model.urdf" then 7 else 0.

Definition respond (c : call) (w : world) : pyexn + (ret_type c * world) :=
  match c return pyexn + (ret_type c * world) with
  | connect _ =>
      inr (sessions w,
           mkWorld (sessions w + 1) (loaded w) (items w) (sliders w)
                   (distances w))
  | getDataPath => inr ("/pybullet_data", w)
  | setAdditionalSearchPath _ _ => inr (tt, w)
  | loadURDF file _ _ client =>
      inr (Z.of_nat (List.length (bodies_in client w)),
           mkWorld (sessions w) (loaded w ++ [(client, file)]) (items w)
                   (sliders w) (distances w))
  | addUserDebugParameter _ _ _ _ _ =>
      inr (items w,
           mkWorld (sessions w) (loaded w) (items w + 1) (sliders w)
                   (distances w))
  | readUserDebugParameter item =>
      match nth_error (sliders w) (Z.to_nat item) with
      | Some v => inr (v, w)
      | None => inl (pybullet_error "Failed to read parameter.")
      end
  | getNumJoints body client =>
      match nth_error (bodies_in client w) (Z.to_nat body) with
      | Some file => inr (joints_of file, w)
      | None => inl (pybullet_error "Not connected to physics server.")
      end
  | resetJointState _ _ _ _ => inr (tt, w)
  | addUserDebugText _ _ _ _ _ =>
      inr (items w,
           mkWorld (sessions w) (loaded w) (items w + 1) (sliders w)
                   (distances w))
  | stepSimulation _ => inr (tt, w)
  | query_distances _ _ => inr (distances w, w)
  | print _ _ => inr (tt, w)
  end.

(** A fresh simulator whose user holds the margin slider at [margin] and
    the joint sliders at [q], with the monitored distances [ds]. *)
Definition fresh (margin : float) (q ds : list float) : world :=
  mkWorld 0 [] 0 (margin :: q) ds.

Definition zero_pose : list float := [0; 0; 0; 0; 0; 0; 0]%float.

(** The arm well clear of every obstacle, and the arm nearly touching
    the first cube. *)
Definition clear : world := fresh 0.01 zero_pose [1.25; 1.5; 1.5; 1.5]%float.
Definition close : world := fresh 0.01 zero_pose [1.25; 0.005; 1.5; 1.5]%float.

(** A simulator that has lost its sliders: reading one fails. *)
Definition unplugged : world := mkWorld 0 [] 0 [] [1.25; 1.5; 1.5; 1.5]%float.

(** A state vector shorter than the arm's seven joints. *)
Definition short_state : list float := [0.5; 0.25; 0.125]%float.

(** What [main] has built on a fresh simulator when it enters the loop:
    sessions 0 (GUI) and 1 (headless), sliders 0 to 7, bodies 0 to 4. *)
Definition ids : body_ids := mkBodyIds 0 1 2 3 4.

Definition env : loop_env :=
  mkLoopEnv 0 1 (params_of 0 [1; 2; 3; 4; 5; 6; 7])
            (bodies_of ids) (bodies_of ids)
            (mkCollisionDetector 1 (bodies_of ids) monitored_pairs) 1.

Definition setup_log : trace :=
  Returned (connect GUI) 0 :: Returned (connect DIRECT) 1
  :: sliders_log 0 0 [1; 2; 3; 4; 5; 6; 7]
  ++ environment_log 0 "/pybullet_data" ids
  ++ environment_log 1 "/pybullet_data" ids.

(** What [load_environment 0] logs on the fresh simulator, and the
    simulator after it. *)
Definition load_log : trace := environment_log 0 "/pybullet_data" ids.

Definition loaded_once : world :=
  mkWorld 0
    [(0, "plane.urdf"); (0, "kuka_iiwa/model.urdf"); (0, "cube.urdf");
     (0, "cube.urdf"); (0, "cube.urdf")]
    0 (sliders clear) (distances clear).

(** The simulator [w] after that setup. *)
Definition started (w : world) : world :=
  mkWorld 2
    [(0, "plane.urdf"); (0, "kuka_iiwa/model.urdf"); (0, "cube.urdf");
     (0, "cube.urdf"); (0, "cube.urdf");
     (1, "plane.urdf"); (1, "kuka_iiwa/model.urdf"); (1, "cube.urdf");
     (1, "cube.urdf"); (1, "cube.urdf")]
    8 (sliders w) (distances w).

(** The simulator after a warning text was added. *)
Definition warned (w : world) : world :=
  mkWorld (sessions (started w)) (loaded (started w)) 9 (sliders w)
          (distances w).

(** The logs of one loop turn: on [clear], the pose is written; on
    [close], the warning is shown. *)
Definition clear_turn_log : trace :=
  turn_log env [1; 2; 3; 4; 5; 6; 7] 0 zero_pose
           (distances clear) 0.01 (distances clear)
           (Returned (getNumJoints 1 0) 7
            :: resets_log 1 0 (range 7) zero_pose).

Definition close_turn_log : trace :=
  turn_log env [1; 2; 3; 4; 5; 6; 7] 0 zero_pose
           (distances close) 0.01 (distances close)
           [Returned warning_text 8].

(** One loop turn on the started simulator. *)
Definition turn (w : world) : trace * outcome world unit :=
  exec respond 100 (loop_body env) (started w).

End Sim.

(** ** A simulator that answers every call *)

Module Steady.

(** What a call returns when nothing better is known. *)
Definition default_answer (c : call) : ret_type c :=
  match c with
  | connect _ => 0
  | getDataPath => ""
  | setAdditionalSearchPath _ _ => tt
  | loadURDF _ _ _ _ => 0
  | addUserDebugParameter _ _ _ _ _ => 0
  | readUserDebugParameter _ => 0%float
  | getNumJoints _ _ => 0
  | resetJointState _ _ _ _ => tt
  | addUserDebugText _ _ _ _ _ => 0
  | stepSimulation _ => tt
  | query_distances _ _ => []
  | print _ _ => tt
  end.

(** The simulator [Sim], with a default answer where [Sim] raises. *)
Definition respond (c : call) (w : Sim.world)
  : pyexn + (ret_type c * Sim.world) :=
  match Sim.respond c w with
  | inr r => inr r
  | inl _ => inr (default_answer c, w)
  end.

End Steady.

(** ** Facts about runs *)

Section RunFacts.

Variable W : Type.
Variable respond : forall c : call, W -> pyexn + (ret_type c * W).

Lemma exec_unfold {A : Type} (fuel : nat) (t : script A) (w : W) :
  exec respond fuel t w =
  match observe t with
  | RetF a => ([], Done a w fuel)
  | TauF t' =>
      match fuel with
      | O => ([], Going w)
      | S f => exec respond f t' w
      end
  | VisF e k =>
      match fuel with
      | O => ([], Going w)
      | S f => step_event respond e (fun x => exec respond f (k x)) w
      end
  end.
Proof. destruct fuel; reflexivity. Qed.

Lemma and_then_nil {A B : Type} (a : A) (w : W) (f : nat)
      (k : A -> nat -> W -> trace * outcome W B) :
  and_then ([], Done a w f) k = k a f w.
Proof. unfold and_then. destruct (k a f w); reflexivity. Qed.

Lemma exec_bind {A B : Type} (fuel : nat) (t : script A)
      (k : A -> script B) (w : W) :
  exec respond fuel (ITree.bind t k) w =
  and_then (exec respond fuel t w) (fun a f w' => exec respond f (k a) w').
Proof.
  revert t w. induction fuel as [|f IH]; intros t w;
    rewrite (exec_unfold _ (ITree.bind t k)), (exec_unfold _ t);
    rewrite observe_bind;
    destruct (observe t) as [r | t0 | X e ke].
  - rewrite and_then_nil. symmetry. exact (exec_unfold _ (k r) w).
  - reflexivity.
  - reflexivity.
  - rewrite and_then_nil. symmetry. exact (exec_unfold _ (k r) w).
  - apply IH.
  - destruct e as [c | exn]; simpl.
    + destruct (respond c w) as [exn | [v w']]; [reflexivity|].
      rewrite IH.
      destruct (exec respond f (ke v) w') as [tr [a w1 f1 | e w1 | w1]];
        simpl; [|reflexivity|reflexivity].
      destruct (exec respond f1 (k a) w1); reflexivity.
    + reflexivity.
Qed.

Lemma exec_ret {A : Type} (fuel : nat) (a : A) (w : W) :
  exec respond fuel (Ret a) w = ([], Done a w fuel).
Proof. rewrite exec_unfold. reflexivity. Qed.

Lemma exec_tau {A : Type} (fuel : nat) (t : script A) (w : W) :
  exec respond fuel (Tau t) w =
  match fuel with
  | O => ([], Going w)
  | S f => exec respond f t w
  end.
Proof. rewrite exec_unfold. reflexivity. Qed.

Lemma exec_do_call (fuel : nat) (c : call) (w : W) :
  exec respond fuel (do_call c) w =
  match fuel with
  | O => ([], Going w)
  | S f =>
      match respond c w with
      | inl exn => ([Threw c exn], Failed exn w)
      | inr (v, w') => ([Returned c v], Done v w' f)
      end
  end.
Proof.
  rewrite exec_unfold. destruct fuel as [|f]; simpl; [reflexivity|].
  destruct (respond c w) as [exn | [v w']]; [reflexivity|].
  rewrite exec_ret. reflexivity.
Qed.

Lemma exec_raise {A : Type} (fuel : nat) (e : pyexn) (w : W) :
  exec respond fuel (@raise A e) w =
  match fuel with
  | O => ([], Going w)
  | S _ => ([ScriptRaised e], Failed e w)
  end.
Proof. rewrite exec_unfold. destruct fuel; reflexivity. Qed.

Lemma exec_forever {A B : Type} (fuel : nat) (t : script A) (w : W) :
  exec respond fuel (@ITree.forever pyE A B t) w =
  exec respond fuel (ITree.bind t (fun _ => Tau (ITree.forever t))) w.
Proof. rewrite !exec_unfold. reflexivity. Qed.

(** A run never gains fuel. *)
Lemma exec_fuel_left {A : Type} (fuel : nat) :
  forall (t : script A) (w : W) tr a w' f,
    exec respond fuel t w = (tr, Done a w' f) -> (f <= fuel)%nat.
Proof.
  induction fuel as [|n IH]; intros t w tr a w' f H;
    rewrite exec_unfold in H; destruct (observe t) as [r | t0 | X e k].
  - inversion H; lia.
  - discriminate.
  - discriminate.
  - inversion H; lia.
  - apply IH in H. lia.
  - destruct e as [c | exn]; simpl in H; [|discriminate].
    destruct (respond c w) as [exn | [v w1]]; [discriminate|].
    destruct (exec respond n (k v) w1) as [tr1 o1] eqn:E.
    inversion H; subst. apply IH in E. lia.
Qed.

Lemma always_ret {A : Type} (P : entry -> Prop) (Q : A -> Prop) (a : A) :
  Q a -> always respond P Q (Ret a).
Proof.
  intros HQ fuel w. rewrite exec_ret. simpl. split; [constructor|].
  intros a' w' f H. inversion H; subst; assumption.
Qed.

Lemma always_call (P : entry -> Prop) (c : call) (Q : ret_type c -> Prop) :
  (forall v, P (Returned c v) /\ Q v) -> (forall e, P (Threw c e)) ->
  always respond P Q (do_call c).
Proof.
  intros Hv He fuel w. rewrite exec_do_call.
  destruct fuel as [|f]; simpl; [split; [constructor | discriminate]|].
  destruct (respond c w) as [exn | [v w1]]; simpl.
  - split; [repeat constructor; apply He | discriminate].
  - split; [repeat constructor; apply Hv|].
    intros a w' f' H. inversion H; subst. apply Hv.
Qed.

Lemma always_raise {A : Type} (P : entry -> Prop) (Q : A -> Prop)
      (e : pyexn) :
  P (ScriptRaised e) -> always respond P Q (raise e).
Proof.
  intros He fuel w. rewrite exec_raise.
  destruct fuel; simpl; split;
    try discriminate; repeat constructor; assumption.
Qed.

Lemma always_bind {A B : Type} (P : entry -> Prop) (Q : A -> Prop)
      (R : B -> Prop) (t : script A) (k : A -> script B) :
  always respond P Q t -> (forall a, Q a -> always respond P R (k a)) ->
  always respond P R (ITree.bind t k).
Proof.
  intros Ht Hk fuel w. rewrite exec_bind.
  destruct (Ht fuel w) as [HP HQ].
  destruct (exec respond fuel t w) as [tr [a w1 f1 | e w1 | w1]]; simpl in *.
  - destruct (Hk a (HQ a w1 f1 eq_refl) f1 w1) as [HP' HR].
    destruct (exec respond f1 (k a) w1) as [tr' o']; simpl in *.
    split; [apply Forall_app; split; assumption | exact HR].
  - split; [assumption | discriminate].
  - split; [assumption | discriminate].
Qed.

Lemma always_weaken {A : Type} (P P' : entry -> Prop) (Q Q' : A -> Prop)
      (t : script A) :
  (forall e, P e -> P' e) -> (forall a, Q a -> Q' a) ->
  always respond P Q t -> always respond P' Q' t.
Proof.
  intros HP HQ Ht fuel w. destruct (Ht fuel w) as [H1 H2]. split.
  - eapply Forall_impl; [exact HP | exact H1].
  - intros a w' f H. apply HQ. eapply H2; exact H.
Qed.

Lemma always_for_each {A : Type} (P : entry -> Prop) (l : list A)
      (body : A -> script unit) :
  (forall x, In x l -> always respond P (fun _ => True) (body x)) ->
  always respond P (fun _ => True) (for_each l body).
Proof.
  induction l as [|x l IH]; intros Hb; simpl.
  - apply always_ret. exact I.
  - eapply always_bind; [apply Hb; left; reflexivity|].
    intros _ _. apply IH. intros y Hy. apply Hb. right. exact Hy.
Qed.

(** A [while True] loop logs what its body logs, and returns nothing. *)
Lemma always_forever {A B : Type} (P : entry -> Prop) (Q : A -> Prop)
      (t : script A) :
  always respond P Q t -> always respond P (fun _ : B => False) (ITree.forever t).
Proof.
  intros Ht fuel. induction fuel as [fuel IH] using lt_wf_ind. intros w.
  rewrite exec_forever, exec_bind.
  destruct (Ht fuel w) as [HP _].
  destruct (exec respond fuel t w) as [tr [a w1 f1 | e w1 | w1]] eqn:E;
    simpl in *; try (split; [assumption | discriminate]).
  apply exec_fuel_left in E. rewrite exec_tau.
  destruct f1 as [|f2]; simpl.
  - rewrite app_nil_r. split; [assumption | discriminate].
  - assert (Hlt : (f2 < fuel)%nat) by lia.
    destruct (IH f2 Hlt w1) as [HP' HR].
    destruct (exec respond f2 (ITree.forever t) w1) as [tr' o']; simpl in *.
    split; [apply Forall_app; split; assumption | exact HR].
Qed.

Lemma always_seq {A B : Type} (P : entry -> Prop) (R : B -> Prop)
      (t : script A) (k : A -> script B) :
  always respond P (fun _ => True) t ->
  (forall a, always respond P R (k a)) ->
  always respond P R (ITree.bind t k).
Proof. intros Ht Hk. eapply always_bind; [exact Ht | intros a _; apply Hk]. Qed.

Lemma always_do_call (P : entry -> Prop) (c : call) :
  (forall v, P (Returned c v)) -> (forall e, P (Threw c e)) ->
  always respond P (fun _ => True) (do_call c).
Proof. intros Hv He. apply always_call; [split; [apply Hv | exact I] | exact He]. Qed.

Lemma always_getitem (P : entry -> Prop) (d : dict) (k : string) :
  P (ScriptRaised (KeyError k)) ->
  always respond P (fun _ => True) (getitem d k).
Proof.
  intros HP. unfold getitem. destruct (dict_lookup d k).
  - apply always_ret. exact I.
  - apply always_raise. exact HP.
Qed.

Lemma always_index (P : entry -> Prop) (state : list float) (i : Z) :
  P (ScriptRaised IndexError) ->
  always respond P (fun _ => True) (index state i).
Proof.
  intros HP. unfold index. destruct (array_get state i).
  - apply always_ret. exact I.
  - apply always_raise. exact HP.
Qed.

Lemma exec_index (fuel : nat) (state : list float) (i : Z) (w : W) :
  exec respond fuel (index state i) w =
  match array_get state i with
  | Some v => ([], Done v w fuel)
  | None =>
      match fuel with
      | O => ([], Going w)
      | S _ => ([ScriptRaised IndexError], Failed IndexError w)
      end
  end.
Proof.
  unfold index. destruct (array_get state i).
  - apply exec_ret.
  - apply exec_raise.
Qed.

(** *** Failures *)

(** The log of a run is clean up to its last line, which is a raise
    exactly when the run failed, with the exception of the failure. *)
Lemma exec_propagates {A : Type} (fuel : nat) :
  forall (t : script A) (w : W),
    match snd (exec respond fuel t w) with
    | Failed exn _ =>
        exists before x,
          fst (exec respond fuel t w) = before ++ [x] /\
          raises x = Some exn /\
          Forall (fun y => raises y = None) before
    | _ => Forall (fun y => raises y = None) (fst (exec respond fuel t w))
    end.
Proof.
  induction fuel as [|n IH]; intros t w; rewrite exec_unfold;
    destruct (observe t) as [r | t0 | X e k]; simpl; try constructor.
  - apply IH.
  - destruct e as [c | exn]; simpl.
    + destruct (respond c w) as [exn | [v w1]]; simpl.
      * exists [], (Threw c exn). repeat split. constructor.
      * specialize (IH (k v) w1).
        destruct (exec respond n (k v) w1) as [tr [a w2 f2 | exn w2 | w2]];
          simpl in *.
        -- constructor; [reflexivity | exact IH].
        -- destruct IH as (before & x & -> & Hx & Hbefore).
           exists (Returned c v :: before), x. repeat split; try assumption.
           constructor; [reflexivity | exact Hbefore].
        -- constructor; [reflexivity | exact IH].
    + exists [], (ScriptRaised exn). repeat split. constructor.
Qed.

Lemma exec_uncaught {A : Type} (fuel : nat) (t : script A) (w : W) :
  uncaught (exec respond fuel t w).
Proof.
  intros x exn Hin Hx. pose proof (exec_propagates fuel t w) as H.
  destruct (snd (exec respond fuel t w)) as [a w1 f1 | exn1 w1 | w1].
  - rewrite Forall_forall in H. apply H in Hin. congruence.
  - destruct H as (before & y & Hlog & Hy & Hbefore).
    rewrite Hlog in Hin. apply in_app_or in Hin. destruct Hin as [Hin | Hin].
    + rewrite Forall_forall in Hbefore. apply Hbefore in Hin. congruence.
    + destruct Hin as [<- | []].
      assert (exn1 = exn) by congruence. subst exn1.
      split; [exists w1; reflexivity|].
      exists before. split; assumption.
  - rewrite Forall_forall in H. apply H in Hin. congruence.
Qed.

Lemma and_then_ext {A B : Type} (r : trace * outcome W A)
      (k1 k2 : A -> nat -> W -> trace * outcome W B) :
  (forall a f w, k1 a f w = k2 a f w) -> and_then r k1 = and_then r k2.
Proof.
  intros H. destruct r as [tr [a w f | e w | w]]; simpl; try reflexivity.
  rewrite H. reflexivity.
Qed.

(** A postcondition can be read off the finished runs. *)
Lemma always_done {A : Type} (P : entry -> Prop) (Q : A -> Prop)
      (t : script A) :
  always respond P (fun _ => True) t ->
  (forall fuel w tr a w' f,
      exec respond fuel t w = (tr, Done a w' f) -> Q a) ->
  always respond P Q t.
Proof.
  intros HP HQ fuel w. split; [apply HP|].
  intros a w' f H.
  destruct (exec respond fuel t w) as [tr o] eqn:E. simpl in H. subst o.
  eapply HQ. exact E.
Qed.

(** A call whose answer is known to satisfy [Q] wherever it returns. *)
Lemma always_call_answer (P : entry -> Prop) (c : call)
      (Q : ret_type c -> Prop) :
  (forall w v w', respond c w = inr (v, w') -> P (Returned c v) /\ Q v) ->
  (forall e, P (Threw c e)) ->
  always respond P Q (do_call c).
Proof.
  intros Hv He fuel w. rewrite exec_do_call.
  destruct fuel as [|f]; simpl; [split; [constructor | discriminate]|].
  destruct (respond c w) as [exn | [v w1]] eqn:E; simpl.
  - split; [repeat constructor; apply He | discriminate].
  - destruct (Hv _ _ _ E) as [HP HQ].
    split; [repeat constructor; exact HP|].
    intros a w' f' H. inversion H; subst. exact HQ.
Qed.

(** *** Runs that finish *)

Lemma done_ret {A : Type} fuel (a b : A) (w w' : W) tr f :
  exec respond fuel (Ret a) w = (tr, Done b w' f) ->
  tr = [] /\ b = a /\ w' = w /\ f = fuel.
Proof. rewrite exec_ret. intros H. inversion H. auto. Qed.

Lemma done_call fuel (c : call) (w w' : W) tr (v : ret_type c) f :
  exec respond fuel (do_call c) w = (tr, Done v w' f) ->
  tr = [Returned c v] /\ fuel = S f /\ respond c w = inr (v, w').
Proof.
  rewrite exec_do_call. destruct fuel as [|n]; [discriminate|].
  destruct (respond c w) as [exn | [v1 w1]]; [discriminate|].
  intros H. inversion H. auto.
Qed.

Lemma done_bind {A B : Type} fuel (t : script A) (k : A -> script B)
      (w w' : W) tr (b : B) f :
  exec respond fuel (ITree.bind t k) w = (tr, Done b w' f) ->
  exists tr1 a w1 f1 tr2,
    exec respond fuel t w = (tr1, Done a w1 f1) /\
    exec respond f1 (k a) w1 = (tr2, Done b w' f) /\
    tr = tr1 ++ tr2.
Proof.
  rewrite exec_bind.
  destruct (exec respond fuel t w) as [tr1 [a w1 f1 | e w1 | w1]];
    simpl; try discriminate.
  destruct (exec respond f1 (k a) w1) as [tr2 o2] eqn:E.
  intros H. inversion H; subst.
  exists tr1, a, w1, f1, tr2. auto.
Qed.

Lemma done_bind_call {B : Type} fuel (c : call)
      (k : ret_type c -> script B) (w w' : W) tr (b : B) f :
  exec respond fuel (ITree.bind (do_call c) k) w = (tr, Done b w' f) ->
  exists v w1 f1 tr2,
    respond c w = inr (v, w1) /\
    exec respond f1 (k v) w1 = (tr2, Done b w' f) /\
    tr = Returned c v :: tr2.
Proof.
  intros H. apply done_bind in H.
  destruct H as (tr1 & v & w1 & f1 & tr2 & H1 & H2 & ->).
  apply done_call in H1. destruct H1 as (-> & _ & H1).
  exists v, w1, f1, tr2. auto.
Qed.

Lemma done_getitem fuel (d : dict) (k : string) (w w' : W) tr v f :
  exec respond fuel (getitem d k) w = (tr, Done v w' f) ->
  dict_lookup d k = Some v /\ tr = [] /\ w' = w /\ f = fuel.
Proof.
  unfold getitem. destruct (dict_lookup d k) as [v1|].
  - intros H. apply done_ret in H. destruct H as (-> & -> & -> & ->). auto.
  - rewrite exec_raise. destruct fuel; discriminate.
Qed.

Lemma done_index fuel (state : list float) (i : Z) (w w' : W) tr v f :
  exec respond fuel (index state i) w = (tr, Done v w' f) ->
  array_get state i = Some v /\ tr = [] /\ w' = w /\ f = fuel.
Proof.
  unfold index. destruct (array_get state i) as [v1|].
  - intros H. apply done_ret in H. destruct H as (-> & -> & -> & ->). auto.
  - rewrite exec_raise. destruct fuel; discriminate.
Qed.

(** *** The parts of the script *)

Ltac run_call H :=
  let v := fresh "v" in
  let w := fresh "w" in
  let f := fresh "f" in
  let tr := fresh "tr" in
  match type of H with
  | exec _ _ (ITree.bind (do_call ?c) ?k) _ = _ =>
      apply (@done_bind_call _ _ c k) in H
  end;
  destruct H as (v & w & f & tr & _ & H & ->).

Lemma load_environment_done fuel (client : Z) (w w' : W) tr bs f :
  exec respond fuel (load_environment client) w = (tr, Done bs w' f) ->
  exists path ids, tr = environment_log client path ids /\ bs = bodies_of ids.
Proof.
  unfold load_environment. intros H.
  do 7 run_call H. apply done_ret in H. destruct H as (-> & -> & _ & _).
  exists v, (mkBodyIds v1 v2 v3 v4 v5). destruct v0. split; reflexivity.
Qed.

Lemma create_user_debug_params_done fuel (gui : Z) (w w' : W) tr ps f :
  exec respond fuel (create_user_debug_params gui) w = (tr, Done ps w' f) ->
  exists m js, List.length js = 7%nat /\
    tr = sliders_log gui m js /\ ps = params_of m js.
Proof.
  unfold create_user_debug_params. intros H.
  do 8 run_call H. apply done_ret in H. destruct H as (-> & -> & _ & _).
  exists v, [v0; v1; v2; v3; v4; v5; v6]. repeat split; reflexivity.
Qed.

Lemma array_get_nat (state : list float) (i : nat) :
  array_get state (Z.of_nat i) = nth_error state i.
Proof.
  unfold array_get.
  destruct (Z.of_nat i <? Z.of_nat (List.length state)) eqn:Hlt.
  - replace (0 <=? Z.of_nat i) with true by (symmetry; apply Z.leb_le; lia).
    simpl. rewrite Nat2Z.id. reflexivity.
  - replace (0 <=? Z.of_nat i) with true by (symmetry; apply Z.leb_le; lia).
    replace (Z.of_nat i <? 0) with false by (symmetry; apply Z.ltb_ge; lia).
    simpl. symmetry. apply nth_error_None. apply Z.ltb_ge in Hlt. lia.
Qed.

Lemma skipn_nth_error {A : Type} (l : list A) (i : nat) (v : A) :
  nth_error l i = Some v -> skipn i l = v :: skipn (S i) l.
Proof.
  revert l. induction i as [|i IH]; intros [|x l] H; try discriminate.
  - inversion H. reflexivity.
  - simpl in H. apply IH in H. exact H.
Qed.

(** The joint loop, when it finishes, has written the values of [state]
    at the indices it ran over, and those were all inside [state]. *)
Lemma joint_loop_done (robot client : Z) (state : list float) (len : nat) :
  forall (start : nat) fuel (w w' : W) tr u f,
    exec respond fuel
         (for_each (map Z.of_nat (seq start len)) (fun joint_idx =>
            v <- index state joint_idx ;;
            do_call (resetJointState robot joint_idx v client))) w
    = (tr, Done u w' f) ->
    (len = 0 \/ start + len <= List.length state)%nat /\
    tr = resets_log robot client (map Z.of_nat (seq start len))
                    (skipn start state).
Proof.
  induction len as [|len IH]; intros start fuel w w' tr u f H; simpl in H.
  - apply done_ret in H. destruct H as (-> & _). split; [left|]; reflexivity.
  - apply done_bind in H.
    destruct H as (tr1 & a & w1 & f1 & tr2 & H1 & H2 & ->).
    apply done_bind in H1.
    destruct H1 as (tr3 & v & w3 & f3 & tr4 & H3 & H4 & ->).
    apply done_index in H3. destruct H3 as (Hget & -> & -> & ->).
    apply (@done_call _ (resetJointState _ _ _ _)) in H4.
    destruct H4 as (-> & _ & _).
    apply IH in H2. destruct H2 as (Hlen & ->).
    rewrite array_get_nat in Hget.
    assert (Hstart : (start < List.length state)%nat)
      by (apply nth_error_Some; congruence).
    split; [right; destruct Hlen; lia|].
    rewrite (skipn_nth_error _ _ Hget). destruct a. reflexivity.
Qed.

Lemma update_robot_state_done fuel (robot client : Z) (state : list float)
      (w w' : W) tr u f :
  exec respond fuel (update_robot_state robot state client) w
  = (tr, Done u w' f) ->
  exists n, n <= Z.of_nat (List.length state) /\
    tr = Returned (getNumJoints robot client) n
         :: resets_log robot client (range n) state.
Proof.
  unfold update_robot_state. intros H. run_call H.
  apply joint_loop_done in H. destruct H as (Hlen & ->).
  exists v. split; [destruct Hlen; lia | reflexivity].
Qed.

Lemma read_slider_done fuel (ps : dict) (name : string) (w w' : W) tr v f :
  exec respond fuel (read_slider ps name) w = (tr, Done v w' f) ->
  exists item, dict_lookup ps name = Some item /\
    tr = [Returned (readUserDebugParameter item) v].
Proof.
  unfold read_slider. intros H. apply done_bind in H.
  destruct H as (tr1 & item & w1 & f1 & tr2 & H1 & H2 & ->).
  apply done_getitem in H1. destruct H1 as (Hitem & -> & -> & ->).
  apply (@done_call _ (readUserDebugParameter _)) in H2.
  destruct H2 as (-> & _ & _).
  exists item. split; [assumption | reflexivity].
Qed.

Lemma main_setup_done fuel (w w' : W) tr env f :
  exec respond fuel main_setup w = (tr, Done env w' f) ->
  exists gui col m js path1 ids1 path2 ids2,
    List.length js = 7%nat /\
    tr = Returned (connect GUI) gui :: Returned (connect DIRECT) col
         :: sliders_log gui m js
         ++ environment_log gui path1 ids1
         ++ environment_log col path2 ids2 /\
    env = mkLoopEnv gui col (params_of m js) (bodies_of ids1) (bodies_of ids2)
            (mkCollisionDetector col (bodies_of ids2) monitored_pairs)
            (kuka_body ids1).
Proof.
  unfold main_setup. intros H. do 2 run_call H.
  apply done_bind in H.
  destruct H as (tr1 & ps & ? & ? & tr2 & H1 & H & ->).
  apply create_user_debug_params_done in H1.
  destruct H1 as (m & js & Hjs & -> & ->).
  apply done_bind in H.
  destruct H as (tr3 & bs & ? & ? & tr4 & H3 & H & ->).
  apply load_environment_done in H3. destruct H3 as (path1 & ids1 & -> & ->).
  apply done_bind in H.
  destruct H as (tr5 & cbs & ? & ? & tr6 & H5 & H & ->).
  apply load_environment_done in H5. destruct H5 as (path2 & ids2 & -> & ->).
  apply done_bind in H.
  destruct H as (tr7 & robot & ? & ? & tr8 & H7 & H & ->).
  apply done_getitem in H7. destruct H7 as (Hrobot & -> & -> & ->).
  apply done_ret in H. destruct H as (-> & -> & _ & _).
  simpl in Hrobot. inversion Hrobot; subst robot.
  exists v, v0, m, js, path1, ids1, path2, ids2.
  rewrite !app_nil_r. repeat split; try assumption; reflexivity.
Qed.

Ltac run_read H q :=
  let H1 := fresh "Hread" in
  let item := fresh "item" in
  let Hitem := fresh "Hitem" in
  apply done_bind in H;
  destruct H as (? & q & ? & ? & ? & H1 & H & ->);
  apply read_slider_done in H1;
  destruct H1 as (item & Hitem & ->);
  cbn in Hitem; inversion Hitem; subst item; clear Hitem.

(** One finished loop turn, for the sliders [main] created. *)
Lemma loop_body_done fuel (env : loop_env) (m : Z) (js : list Z)
      (w w' : W) tr u f :
  user_params env = params_of m js -> List.length js = 7%nat ->
  exec respond fuel (loop_body env) w = (tr, Done u w' f) ->
  exists q d margin ds branch,
    List.length q = 7%nat /\
    tr = turn_log env js m q d margin ds branch /\
    branch_log env q (too_close ds margin) branch.
Proof.
  intros Hps Hjs H.
  destruct js as [|j1 [|j2 [|j3 [|j4 [|j5 [|j6 [|j7 [|]]]]]]]];
    try discriminate.
  unfold loop_body, compute_distances in H. rewrite Hps in H.
  run_read H q1. run_read H q2. run_read H q3. run_read H q4.
  run_read H q5. run_read H q6. run_read H q7.
  run_call H. rename v into d.
  run_read H margin.
  apply done_bind in H.
  destruct H as (? & in_col & ? & ? & ? & Hcol & H & ->).
  unfold in_collision, compute_distances in Hcol.
  run_call Hcol. rename v into ds.
  apply done_ret in Hcol. destruct Hcol as (-> & -> & _ & _).
  apply done_bind in H.
  destruct H as (branch & ? & ? & ? & ? & Hbranch & H & ->).
  run_call H.
  apply (@done_call _ (stepSimulation _)) in H. destruct H as (-> & _ & _).
  exists [q1; q2; q3; q4; q5; q6; q7], d, margin, ds, branch.
  split; [reflexivity|]. split.
  - destruct v, u. reflexivity.
  - unfold branch_log. destruct (too_close ds margin); simpl in Hbranch.
    + run_call Hbranch. apply done_ret in Hbranch.
      destruct Hbranch as (-> & _). exists v0. reflexivity.
    + apply update_robot_state_done in Hbranch.
      destruct Hbranch as (n & Hn & ->). exists n. split; [exact Hn|].
      reflexivity.
Qed.

End RunFacts.

(** Walks a script, leaving the facts about its lines to [side]. *)
Ltac walk side :=
  lazymatch goal with
  | |- always _ _ _ (ITree.bind _ _) =>
      apply always_seq; [walk side | intros ?; walk side]
  | |- always ?r ?P _ (do_call ?c) =>
      apply (@always_do_call _ r P c); intros ?; side
  | |- always _ _ _ (Ret _) => apply always_ret; side
  | |- always _ _ _ (getitem _ _) => apply always_getitem; side
  | |- always _ _ _ (index _ _) => apply always_index; side
  | |- always _ _ _ (for_each _ _) =>
      apply always_for_each; intros ? _; walk side
  | |- always _ _ _ (if ?b then _ else _) => destruct b; walk side
  | |- always _ _ _ (read_slider _ _) => unfold read_slider; walk side
  | |- always _ _ _ (compute_distances _ _) =>
      unfold compute_distances; walk side
  | |- always _ _ _ (in_collision _ _ _) => unfold in_collision; walk side
  | |- always _ _ _ (update_robot_state _ _ _) =>
      first [ solve [auto] | unfold update_robot_state; walk side ]
  | |- always _ _ _ (load_environment _) => unfold load_environment; walk side
  | |- always _ _ _ (create_user_debug_params _) =>
      unfold create_user_debug_params; walk side
  | |- always _ _ _ (loop_body _) => unfold loop_body; walk side
  | |- always _ _ _ (main_setup) => unfold main_setup; walk side
  end.

(** ** The scene *)

Section Scene.

Variable W : Type.
Variable respond : forall c : call, W -> pyexn + (ret_type c * W).

(** C7: a finished [load_environment] has made exactly these calls, in this
    order: the search path, then five [loadURDF] with [useFixedBase=True],
    the plane and the KUKA arm at the origin and the cubes at [1,1,0.5],
    [-1,-1,0.5] and [1,-1,0.5]; and it returns the mapping with the five keys
    robot, ground, cube1, cube2, cube3 bound to the ids those loads gave. *)
Theorem load_environment_scene fuel (client_id : Z) (w w' : W) tr bs f :
  exec respond fuel (load_environment client_id) w = (tr, Done bs w' f) ->
  exists path ground_id kuka_id cube1_id cube2_id cube3_id,
    tr = [Returned getDataPath path;
          Returned (setAdditionalSearchPath path client_id) tt;
          Returned (loadURDF "plane.urdf" [PyInt 0; PyInt 0; PyInt 0]
                             true client_id) ground_id;
          Returned (loadURDF "kuka_iiwa/model.urdf"
                             [PyInt 0; PyInt 0; PyInt 0]
                             true client_id) kuka_id;
          Returned (loadURDF "cube.urdf" [PyInt 1; PyInt 1; PyFloat 0.5]
                             true client_id) cube1_id;
          Returned (loadURDF "cube.urdf"
                             [PyInt (-1); PyInt (-1); PyFloat 0.5]
                             true client_id) cube2_id;
          Returned (loadURDF "cube.urdf" [PyInt 1; PyInt (-1); PyFloat 0.5]
                             true client_id) cube3_id] /\
    bs = [("robot", kuka_id); ("ground", ground_id); ("cube1", cube1_id);
          ("cube2", cube2_id); ("cube3", cube3_id)] /\
    List.length (loads tr) = 5%nat /\
    keys bs = ["robot"; "ground"; "cube1"; "cube2"; "cube3"].
Proof.
  intros H. apply load_environment_done in H.
  destruct H as (path & [g k c1 c2 c3] & -> & ->).
  exists path, g, k, c1, c2, c3. repeat split; reflexivity.
Qed.

Lemma NoDup_bodies_of (ids : body_ids) :
  NoDup (map snd (bodies_of ids)) ->
  kuka_body ids <> ground_body ids /\ kuka_body ids <> cube1_body ids /\
  kuka_body ids <> cube2_body ids /\ kuka_body ids <> cube3_body ids /\
  ground_body ids <> cube1_body ids /\ ground_body ids <> cube2_body ids /\
  ground_body ids <> cube3_body ids /\ cube1_body ids <> cube2_body ids /\
  cube1_body ids <> cube3_body ids /\ cube2_body ids <> cube3_body ids.
Proof.
  destruct ids as [g k c1 c2 c3]. simpl. intros H.
  inversion H as [|? ? Hk H1]; subst. inversion H1 as [|? ? Hg H2]; subst.
  inversion H2 as [|? ? Hc1 H3]; subst. inversion H3 as [|? ? Hc2 _]; subst.
  simpl in *. repeat split; intros ->; tauto.
Qed.

Ltac decide_ids :=
  repeat match goal with
         | |- context [Z.eqb ?a ?b] =>
             destruct (Z.eqb_spec a b); try congruence; simpl
         end.

(** C2: when [main] has finished its setup, the scene of the GUI session
    and the scene of the headless session are the same: in both, every one
    of the names robot, ground, cube1, cube2, cube3 is bound to a body that
    was loaded from the same URDF file, at the same position, with a fixed
    base.  Sessions and body ids are the simulator's: two sessions are
    two client ids, and a session gives distinct bodies distinct ids. *)
Theorem sessions_load_same_scene fuel (w w' : W) tr env f :
  exec respond fuel main_setup w = (tr, Done env w' f) ->
  gui_id env <> col_id env ->
  NoDup (map snd (bodies env)) ->
  NoDup (map snd (collision_bodies env)) ->
  scene tr (gui_id env) (bodies env) = fixed_scene /\
  scene tr (col_id env) (collision_bodies env) = fixed_scene.
Proof.
  intros H Hsessions Hgui Hcol. apply main_setup_done in H.
  destruct H as (gui & col & m & js & p1 & ids1 & p2 & ids2 & Hjs & -> & ->).
  simpl in Hsessions, Hgui, Hcol |- *.
  apply NoDup_bodies_of in Hgui. apply NoDup_bodies_of in Hcol.
  destruct js as [|j1 [|j2 [|j3 [|j4 [|j5 [|j6 [|j7 [|]]]]]]]];
    try discriminate.
  destruct ids1 as [g1 k1 a1 b1 c1], ids2 as [g2 k2 a2 b2 c2].
  simpl in Hgui, Hcol.
  destruct Hgui as (? & ? & ? & ? & ? & ? & ? & ? & ? & ?).
  destruct Hcol as (? & ? & ? & ? & ? & ? & ? & ? & ? & ?).
  unfold scene, placed, fixed_scene; simpl.
  split; decide_ids; reflexivity.
Qed.

End Scene.

(** ** One turn of the loop *)

Section Turn.

Variable W : Type.
Variable respond : forall c : call, W -> pyexn + (ret_type c * W).

Lemma filter_resets_log (keep : entry -> bool) (b : bool)
      (robot client : Z) (idx : list Z) (values : list float) :
  (forall i v, keep (Returned (resetJointState robot i v client) tt) = b) ->
  filter keep (resets_log robot client idx values)
  = if b then resets_log robot client idx values else [].
Proof.
  intros Hkeep. unfold resets_log.
  induction (combine idx values) as [|p l IH]; simpl.
  - destruct b; reflexivity.
  - rewrite Hkeep, IH. destruct b; reflexivity.
Qed.

(** A finished turn of the loop [main] runs. *)
Lemma turn_done fuel0 (w0 w1 : W) tr0 env f1 fuel (w w' : W) tr u f :
  exec respond fuel0 main_setup w0 = (tr0, Done env w1 f1) ->
  exec respond fuel (loop_body env) w = (tr, Done u w' f) ->
  exists joint_items margin_item q d margin ds branch,
    List.length joint_items = 7%nat /\ List.length q = 7%nat /\
    user_params env = params_of margin_item joint_items /\
    tr = turn_log env joint_items margin_item q d margin ds branch /\
    branch_log env q (too_close ds margin) branch.
Proof.
  intros Hsetup Hturn. apply main_setup_done in Hsetup.
  destruct Hsetup as (gui & col & m & js & p1 & ids1 & p2 & ids2
                      & Hjs & _ & ->).
  eapply loop_body_done in Hturn; [|reflexivity|exact Hjs].
  destruct Hturn as (q & d & margin & ds & branch & Hq & -> & Hbranch).
  exists js, m, q, d, margin, ds, branch. auto.
Qed.

Ltac seven l :=
  destruct l as [|? [|? [|? [|? [|? [|? [|? [|]]]]]]]]; try discriminate.

(** The branch of a finished turn: writes without warning, or the red
    warning without writes, by the collision flag. *)
Lemma finished_turn_branch
        fuel0 (w0 w1 : W) tr0 env f1 fuel (w w' : W) tr u f :
  exec respond fuel0 main_setup w0 = (tr0, Done env w1 f1) ->
  exec respond fuel (loop_body env) w = (tr, Done u w' f) ->
  exists joint_items margin_item q d margin ds branch,
    user_params env = params_of margin_item joint_items /\
    tr = turn_log env joint_items margin_item q d margin ds branch /\
    if too_close ds margin
    then filter is_pose_write tr = [] /\
         (exists item, filter is_warning tr = [Returned warning_text item]) /\
         colour_of warning_text = red
    else filter is_warning tr = [] /\
         exists n,
           branch = Returned (getNumJoints (robot_id env) (gui_id env)) n
                    :: resets_log (robot_id env) (gui_id env) (range n) q /\
           filter is_pose_write tr
           = resets_log (robot_id env) (gui_id env) (range n) q.
Proof.
  intros Hsetup Hturn.
  destruct (turn_done _ _ _ _ Hsetup Hturn)
    as (js & m & q & d & margin & ds & branch & Hjs & Hq & Hps & -> & Hb).
  exists js, m, q, d, margin, ds, branch.
  split; [exact Hps|]. split; [reflexivity|].
  seven js. seven q. unfold branch_log in Hb.
  unfold turn_log, reads_log. simpl.
  destruct (too_close ds margin).
  - destruct Hb as (item & ->). simpl.
    split; [reflexivity|]. split; [exists item|]; reflexivity.
  - destruct Hb as (n & Hn & ->). rewrite !filter_app. simpl.
    rewrite (@filter_resets_log is_warning false),
            (@filter_resets_log is_pose_write true) by reflexivity.
    split; [reflexivity|]. exists n. rewrite app_nil_r.
    split; reflexivity.
Qed.

(** The order of the lines of a finished turn. *)
Lemma finished_turn_order fuel0 (w0 w1 : W) tr0 env f1 fuel (w w' : W) tr u f :
  exec respond fuel0 main_setup w0 = (tr0, Done env w1 f1) ->
  exec respond fuel (loop_body env) w = (tr, Done u w' f) ->
  exists joint_items margin_item q d margin ds branch,
    user_params env = params_of margin_item joint_items /\
    List.length joint_items = 7%nat /\ List.length q = 7%nat /\
    tr = reads_log joint_items q
         ++ [Returned (query_distances (col_detector env) q) d;
             Returned (readUserDebugParameter margin_item) margin;
             Returned (query_distances (col_detector env) q) ds]
         ++ branch
         ++ [Returned (print "Distance to obstacles = " d) tt;
             Returned (stepSimulation (gui_id env)) tt] /\
    branch_log env q (too_close ds margin) branch /\
    filter is_step tr = [Returned (stepSimulation (gui_id env)) tt].
Proof.
  intros Hsetup Hturn.
  destruct (turn_done _ _ _ _ Hsetup Hturn)
    as (js & m & q & d & margin & ds & branch & Hjs & Hq & Hps & -> & Hb).
  exists js, m, q, d, margin, ds, branch.
  do 4 (split; [assumption || reflexivity|]). split; [exact Hb|].
  seven js. seven q. unfold branch_log in Hb.
  unfold turn_log, reads_log. simpl. rewrite !filter_app. simpl.
  destruct (too_close ds margin).
  - destruct Hb as (item & ->). reflexivity.
  - destruct Hb as (n & Hn & ->). simpl.
    rewrite (@filter_resets_log is_step false) by reflexivity. reflexivity.
Qed.

(** The slider reads of a finished turn. *)
Lemma finished_turn_reads
        fuel0 (w0 w1 : W) tr0 env f1 fuel (w w' : W) tr u f :
  exec respond fuel0 main_setup w0 = (tr0, Done env w1 f1) ->
  exec respond fuel (loop_body env) w = (tr, Done u w' f) ->
  exists joint_items margin_item q d margin ds branch,
    List.length joint_items = 7%nat /\ List.length q = 7%nat /\
    user_params env = params_of margin_item joint_items /\
    tr = turn_log env joint_items margin_item q d margin ds branch /\
    filter is_slider_read tr
    = reads_log joint_items q
      ++ [Returned (readUserDebugParameter margin_item) margin] /\
    List.length (filter is_slider_read tr) = 8%nat.
Proof.
  intros Hsetup Hturn.
  destruct (turn_done _ _ _ _ Hsetup Hturn)
    as (js & m & q & d & margin & ds & branch & Hjs & Hq & Hps & -> & Hb).
  exists js, m, q, d, margin, ds, branch.
  do 3 (split; [assumption|]). split; [reflexivity|].
  seven js. seven q. unfold branch_log in Hb.
  assert (Hbranch : filter is_slider_read branch = []).
  { destruct (too_close ds margin).
    - destruct Hb as (item & ->). reflexivity.
    - destruct Hb as (n & Hn & ->). simpl.
      rewrite (@filter_resets_log is_slider_read false) by reflexivity.
      reflexivity. }
  unfold turn_log, reads_log. simpl. rewrite !filter_app, Hbranch. simpl.
  split; reflexivity.
Qed.

End Turn.

(** ** Every run of the loop and of [main] *)

Section Always.

Variable W : Type.
Variable respond : forall c : call, W -> pyexn + (ret_type c * W).

Lemma loop_body_lines (env : loop_env) :
  always respond (turn_line env) (fun _ => True) (loop_body env).
Proof. walk ltac:(cbv; auto). Qed.

Lemma turn_line_leaves_alone (env : loop_env) (e : entry) :
  gui_id env <> col_id env -> col_id env <> default_client ->
  turn_line env e -> leaves_alone (col_id env) e.
Proof.
  unfold turn_line, leaves_alone. intros Hgui Hdef.
  destruct (call_of e) as [[]|]; simpl; try congruence; try tauto;
    try (intros [_ ->]; congruence).
  all: unfold default_client in *; intros _ H; inversion H; congruence.
Qed.

(** C9: in any run of the loop, observed for any length, every
    [stepSimulation] is on the GUI session, and so is every other call that
    names a session (the joint count and the joint writes of the robot);
    the remaining calls are slider reads, the warning text and the print,
    which name no session, and distance queries through the detector [main]
    built.  So, the headless session being neither the GUI session nor
    pybullet's default one, no pybullet call of the loop is addressed to
    it. *)
Theorem loop_drives_only_gui_session (env : loop_env) fuel (w : W) :
  gui_id env <> col_id env -> col_id env <> default_client ->
  let tr := fst (exec respond fuel (main_loop env) w) in
  Forall (turn_line env) tr /\
  Forall (fun e => is_step e = true ->
                   call_of e = Some (stepSimulation (gui_id env))) tr /\
  Forall (leaves_alone (col_id env)) tr.
Proof.
  intros Hgui Hdef tr.
  assert (Hlines : Forall (turn_line env) tr).
  { apply (always_forever (B := unit) (loop_body_lines env)). }
  split; [exact Hlines|]. split.
  - eapply Forall_impl; [|exact Hlines]. intros e He Hstep.
    unfold turn_line in He. unfold is_step in Hstep.
    destruct (call_of e) as [[]|]; try discriminate. subst. reflexivity.
  - eapply Forall_impl; [|exact Hlines]. intros e.
    apply turn_line_leaves_alone; assumption.
Qed.

Lemma main_setup_queries :
  always respond queries_monitored_pairs
         (fun env => det_pairs (col_detector env)
                     = [(link7, ground); (link7, cube1);
                        (link7, cube2); (link7, cube3)])
         main_setup.
Proof. walk ltac:(cbv; auto). Qed.

Lemma loop_body_queries (env : loop_env) :
  det_pairs (col_detector env)
  = [(link7, ground); (link7, cube1); (link7, cube2); (link7, cube3)] ->
  always respond queries_monitored_pairs (fun _ => True) (loop_body env).
Proof. intros Hpairs. walk ltac:(cbv; auto). Qed.

(** Every distance query of any run of [main] goes through a detector
    with the four pairs. *)
Lemma main_queries_monitored fuel (w : W) :
  Forall queries_monitored_pairs (fst (exec respond fuel main w)).
Proof.
  assert (H : always respond queries_monitored_pairs (fun _ : unit => False)
                     main).
  { unfold main. eapply always_bind; [apply main_setup_queries|].
    intros env Hpairs.
    exact (always_forever (loop_body_queries env Hpairs)). }
  apply H.
Qed.

Lemma main_setup_index_errors :
  always respond only_index_errors
         (fun env => exists m js, List.length js = 7%nat /\
                                  user_params env = params_of m js)
         main_setup.
Proof.
  apply always_done.
  - unfold main_setup.
    apply always_seq; [walk ltac:(cbv; auto) | intros gui].
    apply always_seq; [walk ltac:(cbv; auto) | intros col].
    apply always_seq; [walk ltac:(cbv; auto) | intros ps].
    eapply always_bind with (Q := fun bs => exists ids, bs = bodies_of ids).
    + apply always_done; [walk ltac:(cbv; auto)|].
      intros fuel w tr bs w' f H. apply load_environment_done in H.
      destruct H as (path & ids & _ & ->). exists ids. reflexivity.
    + intros bs (ids & ->).
      apply always_seq; [walk ltac:(cbv; auto) | intros cbs].
      unfold getitem. simpl. walk ltac:(cbv; auto).
  - intros fuel w tr env w' f H. apply main_setup_done in H.
    destruct H as (gui & col & m & js & p1 & ids1 & p2 & ids2 & Hjs & _ & ->).
    exists m, js. split; [exact Hjs | reflexivity].
Qed.

Lemma loop_body_index_errors (env : loop_env) (m : Z) (js : list Z) :
  List.length js = 7%nat -> user_params env = params_of m js ->
  always respond only_index_errors (fun _ => True) (loop_body env).
Proof.
  intros Hjs Hps.
  destruct js as [|j1 [|j2 [|j3 [|j4 [|j5 [|j6 [|j7 [|]]]]]]]];
    try discriminate.
  unfold loop_body, read_slider, getitem. rewrite Hps. simpl.
  walk ltac:(cbv; auto).
Qed.

Lemma main_index_errors :
  always respond only_index_errors (fun _ : unit => False) main.
Proof.
  unfold main. eapply always_bind; [apply main_setup_index_errors|].
  intros env (m & js & Hjs & Hps).
  exact (always_forever (loop_body_index_errors env Hjs Hps)).
Qed.

Lemma main_loop_after_turns (env : loop_env) (n : nat) :
  forall fuel (w : W),
    exec respond fuel (main_loop env) w
    = exec respond fuel (after_turns n env) w.
Proof.
  induction n as [|n IH]; intros fuel w; [reflexivity|].
  unfold main_loop. rewrite exec_forever. simpl. rewrite !exec_bind.
  apply and_then_ext. intros _ f w1. rewrite !exec_tau.
  destruct f as [|f]; [reflexivity|]. apply IH.
Qed.

(** C6: the loop has no way out.  Observed for any length, on any
    simulator, a run of [main] has not returned: it is still going, or it
    was stopped by an exception, raised on the last line of its log by an
    external call or by the array indexing.  The same holds of the loop
    from any state (there with any raise).  And for every [n], the loop is
    [n] turns followed by the loop again, so another turn follows. *)
Theorem main_loop_never_returns (env : loop_env) fuel (w : W) :
  runs_on_or_fails (exec respond fuel main w) /\
  unfinished (snd (exec respond fuel (main_loop env) w)) /\
  forall n, exec respond fuel (main_loop env) w
            = exec respond fuel (after_turns n env) w.
Proof.
  split; [|split].
  - unfold runs_on_or_fails.
    destruct (main_index_errors fuel w) as [Hlines Hret].
    pose proof (exec_propagates respond fuel main w) as Hlast.
    destruct (snd (exec respond fuel main w)) as [a w1 f1 | exn w1 | w1];
      [eapply Hret; reflexivity | | exact I].
    destruct Hlast as (before & x & Hlog & Hx & _).
    exists before, x. split; [exact Hlog|].
    rewrite Hlog in Hlines. apply Forall_app in Hlines.
    destruct Hlines as [_ Hlast]. inversion Hlast as [|? ? Hlx _]; subst.
    destruct x as [c v | c e | e]; simpl in Hx, Hlx.
    + discriminate.
    + left. exists c. congruence.
    + right. subst e. split; [reflexivity | congruence].
  - assert (Hloop : always respond (fun _ => True) (fun _ : unit => False)
                           (main_loop env)).
    { apply (@always_forever _ respond unit unit (fun _ => True)
               (fun _ => True)).
      intros f0 w0. split; [|intros; exact I].
      apply Forall_forall. intros; exact I. }
    destruct (Hloop fuel w) as [_ H].
    destruct (snd (exec respond fuel (main_loop env) w)); simpl; auto.
    eapply H; eauto.
  - intros n. apply main_loop_after_turns.
Qed.

(** *** Indexing the state vector *)

Lemma in_range (n i : Z) : In i (range n) -> 0 <= i < n.
Proof.
  unfold range. rewrite in_map_iff. intros (k & <- & Hk).
  apply in_seq in Hk. lia.
Qed.

Lemma array_get_inside (state : list float) (i : Z) :
  0 <= i < Z.of_nat (List.length state) ->
  exists v, array_get state i = Some v.
Proof.
  intros Hi. rewrite <- (Z2Nat.id i) by lia. rewrite array_get_nat.
  destruct (nth_error state (Z.to_nat i)) as [v|] eqn:E; [eauto|].
  apply nth_error_None in E. lia.
Qed.

(** Within the vector, the joint loop raises no IndexError. *)
Lemma joint_loop_safe (robot client : Z) (state : list float) (n : Z) :
  n <= Z.of_nat (List.length state) ->
  always respond no_index_error (fun _ => True)
         (for_each (range n) (fun joint_idx =>
            v <- index state joint_idx ;;
            do_call (resetJointState robot joint_idx v client))).
Proof.
  intros Hn. apply always_for_each. intros i Hi. apply in_range in Hi.
  destruct (@array_get_inside state i) as (v & Hv); [lia|].
  unfold index. rewrite Hv. walk ltac:(cbv; auto).
Qed.

Lemma update_robot_state_safe (robot client : Z) (state : list float) :
  (forall w n w', respond (getNumJoints robot client) w = inr (n, w') ->
                  n <= Z.of_nat (List.length state)) ->
  always respond no_index_error (fun _ => True)
         (update_robot_state robot state client).
Proof.
  intros Hjoints. unfold update_robot_state.
  eapply always_bind
    with (Q := fun n : Z => n <= Z.of_nat (List.length state)).
  - apply (@always_call_answer _ respond no_index_error
             (getNumJoints robot client)).
    + intros w n w' H. split; [exact I | eapply Hjoints; exact H].
    + intros e. exact I.
  - intros n Hn. apply joint_loop_safe. exact Hn.
Qed.

(** Past the end of the vector, the joint loop writes what is there and
    then raises IndexError, if the writes themselves go through. *)
Lemma joint_loop_overrun (robot client : Z) (state : list float) :
  (forall i v w, exists w',
      respond (resetJointState robot i v client) w = inr (tt, w')) ->
  forall (len start : nat) fuel (w : W),
    (start <= List.length state)%nat ->
    (List.length state < start + len)%nat ->
    (List.length state - start + 1 <= fuel)%nat ->
    exists w',
      exec respond fuel
           (for_each (map Z.of_nat (seq start len)) (fun joint_idx =>
              v <- index state joint_idx ;;
              do_call (resetJointState robot joint_idx v client))) w
      = (resets_log robot client
                    (map Z.of_nat (seq start (List.length state - start)))
                    (skipn start state)
         ++ [ScriptRaised IndexError],
         Failed IndexError w').
Proof.
  intros Hresets. induction len as [|len IH]; intros start fuel w Hlo Hhi Hfuel;
    [lia|].
  simpl. rewrite !exec_bind, exec_index, array_get_nat.
  destruct (nth_error state start) as [v|] eqn:E.
  - assert (Hstart : (start < List.length state)%nat)
      by (apply nth_error_Some; congruence).
    rewrite and_then_nil.
    pose proof (@exec_do_call _ respond fuel
                  (resetJointState robot (Z.of_nat start) v client) w)
      as Hcall.
    cbn [ret_type] in Hcall. rewrite Hcall. clear Hcall.
    destruct fuel as [|fuel]; [lia|].
    destruct (Hresets (Z.of_nat start) v w) as (w2 & ->). simpl.
    destruct (IH (S start) fuel w2) as (w3 & ->); try lia.
    exists w3. simpl.
    replace (List.length state - start)%nat
      with (S (List.length state - S start)) by lia.
    rewrite (skipn_nth_error _ _ E). reflexivity.
  - apply nth_error_None in E.
    assert (start = List.length state) by lia. subst start.
    destruct fuel as [|fuel]; [lia|].
    exists w. simpl. rewrite Nat.sub_diag. reflexivity.
Qed.

End Always.


(** ** The simulator's runs *)

Lemma sim_setup_clear :
  exec Sim.respond 100 main_setup Sim.clear
  = (Sim.setup_log, Done Sim.env (Sim.started Sim.clear) 76).
Proof. vm_compute. reflexivity. Qed.

Lemma sim_turn_clear :
  Sim.turn Sim.clear
  = (Sim.clear_turn_log, Done tt (Sim.started Sim.clear) 80).
Proof. vm_compute. reflexivity. Qed.

Lemma sim_turn_close :
  Sim.turn Sim.close
  = (Sim.close_turn_log, Done tt (Sim.warned Sim.close) 87).
Proof. vm_compute. reflexivity. Qed.

Lemma sim_setup_close :
  exec Sim.respond 100 main_setup Sim.close
  = (Sim.setup_log, Done Sim.env (Sim.started Sim.close) 76).
Proof. vm_compute. reflexivity. Qed.

(** The simulator satisfies what [sessions_load_same_scene] asks. *)
Lemma sessions_load_same_scene_witness :
  scene Sim.setup_log (gui_id Sim.env) (bodies Sim.env) = fixed_scene /\
  scene Sim.setup_log (col_id Sim.env) (collision_bodies Sim.env)
  = fixed_scene.
Proof.
  apply (sessions_load_same_scene Sim.respond 100 Sim.clear sim_setup_clear).
  - discriminate.
  - repeat constructor; simpl; intuition discriminate.
  - repeat constructor; simpl; intuition discriminate.
Defined.

(** The simulator finishes [load_environment]. *)
Lemma load_environment_scene_witness :
  exists path ground_id kuka_id cube1_id cube2_id cube3_id,
    Sim.load_log
    = [Returned getDataPath path;
       Returned (setAdditionalSearchPath path 0) tt;
       Returned (loadURDF "plane.urdf" [PyInt 0; PyInt 0; PyInt 0]
                          true 0) ground_id;
       Returned (loadURDF "kuka_iiwa/model.urdf"
                          [PyInt 0; PyInt 0; PyInt 0]
                          true 0) kuka_id;
       Returned (loadURDF "cube.urdf" [PyInt 1; PyInt 1; PyFloat 0.5]
                          true 0) cube1_id;
       Returned (loadURDF "cube.urdf"
                          [PyInt (-1); PyInt (-1); PyFloat 0.5]
                          true 0) cube2_id;
       Returned (loadURDF "cube.urdf" [PyInt 1; PyInt (-1); PyFloat 0.5]
                          true 0) cube3_id] /\
    bodies_of Sim.ids
    = [("robot", kuka_id); ("ground", ground_id); ("cube1", cube1_id);
       ("cube2", cube2_id); ("cube3", cube3_id)] /\
    List.length (loads Sim.load_log) = 5%nat /\
    keys (bodies_of Sim.ids) = ["robot"; "ground"; "cube1"; "cube2"; "cube3"].
Proof.
  apply (load_environment_scene Sim.respond 100 0 Sim.clear
           (w' := Sim.loaded_once) (f := 93)).
  vm_compute. reflexivity.
Defined.

(** The sliders are read after the first distance query: the numbered order
    of the specification fails on the simulator's first turn. *)
Lemma turn_not_in_numbered_order : ~ turns_in_numbered_order.
Proof.
  intros H.
  specialize (H Sim.world Sim.respond _ _ _ _ _ _ _ _ _ _ _ _
                sim_setup_clear sim_turn_clear).
  vm_compute in H. discriminate.
Qed.

(** On the simulator, the GUI session is 0 and the headless one is 1. *)
Lemma loop_drives_only_gui_session_witness :
  Forall (turn_line Sim.env)
         (fst (exec Sim.respond 100 (main_loop Sim.env)
                    (Sim.started Sim.clear))) /\
  Forall (fun e => is_step e = true ->
                   call_of e = Some (stepSimulation (gui_id Sim.env)))
         (fst (exec Sim.respond 100 (main_loop Sim.env)
                    (Sim.started Sim.clear))) /\
  Forall (leaves_alone (col_id Sim.env))
         (fst (exec Sim.respond 100 (main_loop Sim.env)
                    (Sim.started Sim.clear))).
Proof.
  apply (loop_drives_only_gui_session
           Sim.respond Sim.env 100 (Sim.started Sim.clear));
    intros H; cbv in H; discriminate H.
Defined.

Lemma sim_joints_at_most_seven (w w' : Sim.world) (n : Z) :
  Sim.respond (getNumJoints (robot_id Sim.env) (gui_id Sim.env)) w
  = inr (n, w') ->
  n <= 7.
Proof.
  unfold Sim.respond.
  destruct (nth_error _ _) as [file|]; intros H; inversion H.
  unfold Sim.joints_of.
  destruct (String.eqb file "kuka_iiwa/model.urdf"); lia.
Qed.

Lemma sim_main_unplugged :
  exec Sim.respond 100 main Sim.unplugged
  = (Sim.setup_log
     ++ [Threw (readUserDebugParameter 1)
               (pybullet_error "Failed to read parameter.")],
     Failed (pybullet_error "Failed to read parameter.")
            (Sim.started Sim.unplugged)).
Proof. vm_compute. reflexivity. Qed.

(** ** Checks on concrete values *)

Example range_three : range 3 = [0; 1; 2].
Proof. reflexivity. Qed.

Example range_negative : range (-2) = [].
Proof. reflexivity. Qed.

Example array_get_last : array_get Sim.short_state (-1) = Some 0.125%float.
Proof. reflexivity. Qed.

Example array_get_outside : array_get Sim.short_state 3 = None.
Proof. reflexivity. Qed.

Example too_close_near_cube :
  too_close (Sim.distances Sim.close) 0.01 = true.
Proof. vm_compute. reflexivity. Qed.

Example too_close_clear :
  too_close (Sim.distances Sim.clear) 0.01 = false.
Proof. vm_compute. reflexivity. Qed.

Example joint_slider_range :
  joint_slider "lbr_iiwa_joint1" 0
  = addUserDebugParameter "lbr_iiwa_joint1"
      (PyFloat (-0x1.921fb54442d18p+2)) (PyFloat 0x1.921fb54442d18p+2)
      (PyInt 0) 0.
Proof. vm_compute. reflexivity. Qed.

(** Observed for 100 events, [main] on the clear simulator is in its
    fourth turn, has stepped the GUI simulation three times and queried
    the distances eight times. *)
Example sim_main_hundred :
  unfinished (snd (exec Sim.respond 100 main Sim.clear)) /\
  List.length (filter is_step (fst (exec Sim.respond 100 main Sim.clear)))
  = 3%nat /\
  List.length (filter (fun e => match call_of e with
                                | Some (query_distances _ _) => true
                                | _ => false
                                end)
                      (fst (exec Sim.respond 100 main Sim.clear)))
  = 8%nat.
Proof. vm_compute. repeat split. Qed.

(** With a vector of three values the arm's seven joints overrun it. *)
Example sim_short_state_overruns :
  exec Sim.respond 100 (update_robot_state 1 Sim.short_state 0)
       (Sim.started Sim.clear)
  = ([Returned (getNumJoints 1 0) 7;
      Returned (resetJointState 1 0 0.5 0) tt;
      Returned (resetJointState 1 1 0.25 0) tt;
      Returned (resetJointState 1 2 0.125 0) tt;
      ScriptRaised IndexError],
     Failed IndexError (Sim.started Sim.clear)).
Proof. vm_compute. reflexivity. Qed.

(** ** The helper functions on their own *)

Section Helpers.

Variable W : Type.
Variable respond : forall c : call, W -> pyexn + (ret_type c * W).

(** X1: a finished [create_user_debug_params gui] has created eight
    sliders on session [gui], in this order: the margin slider, from 0 to
    0.2 starting at 0.01, and the seven joint sliders, each from -2 pi to
    2 pi starting at 0; the mapping it returns binds each slider's name to
    the id its creation returned, under eight distinct names. *)
Theorem create_user_debug_params_sliders fuel (gui : Z) (w w' : W) tr ps f :
  exec respond fuel (create_user_debug_params gui) w = (tr, Done ps w' f) ->
  exists m j1 j2 j3 j4 j5 j6 j7,
    let joints := [("lbr_iiwa_joint1", j1); ("lbr_iiwa_joint2", j2);
                   ("lbr_iiwa_joint3", j3); ("lbr_iiwa_joint4", j4);
                   ("lbr_iiwa_joint5", j5); ("lbr_iiwa_joint6", j6);
                   ("lbr_iiwa_joint7", j7)] in
    tr = Returned (addUserDebugParameter "collision_margin" (PyInt 0)
                     (PyFloat 0.2) (PyFloat 0.01) gui) m
         :: map (fun p => Returned (addUserDebugParameter (fst p)
                                      (PyFloat (-2 * np_pi))
                                      (PyFloat (2 * np_pi)) (PyInt 0) gui)
                                   (snd p))
                joints /\
    ps = ("collision_margin", m) :: joints /\
    NoDup (keys ps).
Proof.
  intros H. apply create_user_debug_params_done in H.
  destruct H as (m & js & Hjs & -> & ->).
  destruct js as [|j1 [|j2 [|j3 [|j4 [|j5 [|j6 [|j7 [|]]]]]]]];
    try discriminate.
  exists m, j1, j2, j3, j4, j5, j6, j7.
  split; [reflexivity|]. split; [reflexivity|].
  unfold keys, params_of. simpl.
  repeat (constructor; [simpl; intuition discriminate|]). constructor.
Qed.

Lemma nth_error_nth_default {A : Type} (l : list A) (i : nat) (d : A) :
  (i < List.length l)%nat -> nth_error l i = Some (nth i l d).
Proof.
  revert i. induction l as [|x l IH]; intros [|i] Hi; simpl in *;
    try lia; [reflexivity|].
  apply IH. lia.
Qed.

(** Joint writes over a stretch of indices inside [state] carry, index by
    index, the element of [state] at that index. *)
Lemma resets_log_nth (robot client : Z) (state : list float) (len : nat) :
  forall start : nat,
    (start + len <= List.length state)%nat ->
    resets_log robot client (map Z.of_nat (seq start len))
               (skipn start state)
    = map (fun i => Returned (resetJointState robot (Z.of_nat i)
                                              (nth i state 0%float) client)
                             tt)
          (seq start len).
Proof.
  induction len as [|len IH]; intros start Hlen; [reflexivity|].
  rewrite (@skipn_nth_error _ state start (nth start state 0%float))
    by (apply nth_error_nth_default; lia).
  simpl. unfold resets_log in *. simpl. f_equal. apply IH. lia.
Qed.

(** X2: a finished [update_robot_state robot state client] has asked the
    session for the joint count [n] of the robot, found [n] within the
    length of [state], and written joint [i] with [state[i]] for [i] = 0,
    1, ..., [n]-1, in that order and nothing else: elements of [state]
    past [n] are not used, and with [n <= 0] nothing is written. *)
Theorem update_robot_state_writes fuel (robot client : Z)
        (state : list float) (w w' : W) tr u f :
  exec respond fuel (update_robot_state robot state client) w
  = (tr, Done u w' f) ->
  exists n,
    n <= Z.of_nat (List.length state) /\
    tr = Returned (getNumJoints robot client) n
         :: map (fun i => Returned (resetJointState robot (Z.of_nat i)
                                      (nth i state 0%float) client) tt)
                (seq 0 (Z.to_nat n)).
Proof.
  intros H. apply update_robot_state_done in H.
  destruct H as (n & Hn & ->). exists n. split; [exact Hn|].
  f_equal. unfold range.
  apply (@resets_log_nth robot client state (Z.to_nat n) 0%nat). lia.
Qed.

(** The joint loop runs to its end when the writes go through. *)
Lemma joint_loop_completes (robot client : Z) (state : list float) :
  (forall i v w, exists w',
      respond (resetJointState robot i v client) w = inr (tt, w')) ->
  forall (len start : nat) fuel (w : W),
    (start + len <= List.length state)%nat ->
    exists w',
      exec respond (len + fuel)
           (for_each (map Z.of_nat (seq start len)) (fun joint_idx =>
              v <- index state joint_idx ;;
              do_call (resetJointState robot joint_idx v client))) w
      = (resets_log robot client (map Z.of_nat (seq start len))
                    (skipn start state),
         Done tt w' fuel).
Proof.
  intros Hresets. induction len as [|len IH]; intros start fuel w Hlen.
  - exists w. simpl. rewrite exec_ret. reflexivity.
  - cbn [for_each map seq Nat.add].
    rewrite !exec_bind, exec_index, array_get_nat.
    rewrite (@nth_error_nth_default _ state start 0%float) by lia.
    rewrite and_then_nil.
    pose proof (@exec_do_call _ respond (S (len + fuel))
                  (resetJointState robot (Z.of_nat start)
                                   (nth start state 0%float) client) w)
      as Hcall.
    cbn [ret_type] in Hcall. rewrite Hcall. clear Hcall.
    destruct (Hresets (Z.of_nat start) (nth start state 0%float) w)
      as (w2 & ->). simpl.
    destruct (IH (S start) fuel w2) as (w3 & ->); [lia|].
    exists w3.
    rewrite (@skipn_nth_error _ state start (nth start state 0%float))
      by (apply nth_error_nth_default; lia).
    reflexivity.
Qed.

(** X3: when the session reports a joint count [n] within the length of
    [state] and the joint writes of the robot go through,
    [update_robot_state] finishes: after exactly [1 + n] calls it has
    returned, having logged the joint count and the [n] writes. *)
Theorem update_robot_state_completes (robot client : Z) (state : list float)
        (w w1 : W) (n : Z) fuel :
  respond (getNumJoints robot client) w = inr (n, w1) ->
  (forall i v w2, exists w3,
      respond (resetJointState robot i v client) w2 = inr (tt, w3)) ->
  n <= Z.of_nat (List.length state) ->
  exists w',
    exec respond (S (Z.to_nat n + fuel))
         (update_robot_state robot state client) w
    = (Returned (getNumJoints robot client) n
       :: map (fun i => Returned (resetJointState robot (Z.of_nat i)
                                    (nth i state 0%float) client) tt)
              (seq 0 (Z.to_nat n)),
       Done tt w' fuel).
Proof.
  intros Hn Hresets Hlen. unfold update_robot_state.
  rewrite exec_bind, exec_do_call, Hn. simpl. unfold range.
  destruct (@joint_loop_completes robot client state Hresets
              (Z.to_nat n) 0%nat fuel w1) as (w' & ->); [lia|].
  exists w'. simpl. f_equal. f_equal.
  apply (@resets_log_nth robot client state (Z.to_nat n) 0%nat). lia.
Qed.

(** X4: when [main] has finished its setup, it has connected the GUI
    session and then the headless one, created the sliders on the GUI
    session, and loaded the scene into the GUI session and then into the
    headless one, in that order and with no other call.  The detector is
    bound to the headless session and to the body mapping of the headless
    session; the robot the loop writes to is the body the GUI session's
    mapping binds to the name robot. *)
Theorem main_setup_wiring fuel (w w' : W) tr env f :
  exec respond fuel main_setup w = (tr, Done env w' f) ->
  exists margin_item joint_items path1 ids1 path2 ids2,
    tr = Returned (connect GUI) (gui_id env)
         :: Returned (connect DIRECT) (col_id env)
         :: sliders_log (gui_id env) margin_item joint_items
         ++ environment_log (gui_id env) path1 ids1
         ++ environment_log (col_id env) path2 ids2 /\
    user_params env = params_of margin_item joint_items /\
    bodies env = bodies_of ids1 /\
    collision_bodies env = bodies_of ids2 /\
    det_client (col_detector env) = col_id env /\
    det_bodies (col_detector env) = collision_bodies env /\
    dict_lookup (bodies env) "robot" = Some (robot_id env) /\
    List.length tr = 24%nat.
Proof.
  intros H. apply main_setup_done in H.
  destruct H as (gui & col & m & js & p1 & ids1 & p2 & ids2 & Hjs & -> & ->).
  exists m, js, p1, ids1, p2, ids2. simpl.
  repeat (split; [reflexivity|]).
  destruct js as [|j1 [|j2 [|j3 [|j4 [|j5 [|j6 [|j7 [|]]]]]]]];
    try discriminate.
  reflexivity.
Qed.

Lemma joint_loop_lines (robot client : Z) (state : list float) (n : Z) :
  always respond (joint_line robot client) (fun _ => True)
         (for_each (range n) (fun joint_idx =>
            v <- index state joint_idx ;;
            do_call (resetJointState robot joint_idx v client))).
Proof.
  apply always_for_each. intros i Hi. apply in_range in Hi.
  walk ltac:(simpl; repeat split; try reflexivity; lia).
Qed.

(** X5: in any run, finished or not, on any simulator, each helper stays
    within what it was given: [load_environment client] only asks for the
    data path and sets the search path and loads fixed-base bodies in
    session [client]; [create_user_debug_params gui] only creates sliders
    in session [gui]; [update_robot_state robot state client] only asks
    for the joint count of [robot] and writes joints of [robot] in session
    [client], at indices from 0, or raises the IndexError of indexing
    [state].  None of them reads a slider, steps a simulation, queries
    distances or prints. *)
Theorem helpers_stay_in_their_session fuel (w : W) (client gui robot : Z)
        (state : list float) :
  Forall (load_line client)
         (fst (exec respond fuel (load_environment client) w)) /\
  Forall (slider_line gui)
         (fst (exec respond fuel (create_user_debug_params gui) w)) /\
  Forall (joint_line robot client)
         (fst (exec respond fuel (update_robot_state robot state client) w)).
Proof.
  split; [|split].
  - assert (H : always respond (load_line client) (fun _ => True)
                       (load_environment client))
      by (walk ltac:(cbv; auto)).
    apply H.
  - assert (H : always respond (slider_line gui) (fun _ => True)
                       (create_user_debug_params gui))
      by (walk ltac:(cbv; auto)).
    apply H.
  - assert (H : always respond (joint_line robot client) (fun _ => True)
                       (update_robot_state robot state client)).
    { unfold update_robot_state. apply always_seq.
      - walk ltac:(cbv; auto).
      - intros n. apply joint_loop_lines. }
    apply H.
Qed.

(** *** Runs that must finish *)

Lemma finishes_ret {A : Type} fuel (a : A) :
  finishes respond fuel fuel (Ret a).
Proof. intros w. exists [], a, w. apply exec_ret. Qed.

Lemma finishes_call fuel (c : call) :
  (forall w, exists v w', respond c w = inr (v, w')) ->
  finishes respond (S fuel) fuel (do_call c).
Proof.
  intros Hc w. destruct (Hc w) as (v & w' & E).
  exists [Returned c v], v, w'. rewrite exec_do_call, E. reflexivity.
Qed.

Lemma finishes_bind {A B : Type} fuel fuel1 fuel2 (t : script A)
      (k : A -> script B) (Q : A -> Prop) :
  finishes respond fuel fuel1 t ->
  (forall f w tr a w' f', exec respond f t w = (tr, Done a w' f') -> Q a) ->
  (forall a, Q a -> finishes respond fuel1 fuel2 (k a)) ->
  finishes respond fuel fuel2 (ITree.bind t k).
Proof.
  intros Ht HQ Hk w. destruct (Ht w) as (tr & a & w1 & E).
  destruct (Hk a (HQ _ _ _ _ _ _ E) w1) as (tr2 & b & w2 & E2).
  exists (tr ++ tr2), b, w2. rewrite exec_bind, E. simpl. rewrite E2.
  reflexivity.
Qed.

Lemma finishes_seq {A B : Type} fuel fuel1 fuel2 (t : script A)
      (k : A -> script B) :
  finishes respond fuel fuel1 t ->
  (forall a, finishes respond fuel1 fuel2 (k a)) ->
  finishes respond fuel fuel2 (ITree.bind t k).
Proof.
  intros Ht Hk. apply (@finishes_bind _ _ fuel fuel1 fuel2 t k (fun _ => True)).
  - exact Ht.
  - intros; exact I.
  - intros a _. apply Hk.
Qed.

Ltac finish_calls Hanswers :=
  lazymatch goal with
  | |- finishes _ _ _ (ITree.bind (do_call ?c) _) =>
      eapply finishes_seq;
      [apply (@finishes_call _ c); intros ?; apply Hanswers; reflexivity
      | intros ?; finish_calls Hanswers]
  | |- finishes _ _ _ (Ret _) => apply finishes_ret
  end.

(** X6: on a simulator that answers every call of the setup ([connect],
    the data path, the search path, [loadURDF], [addUserDebugParameter]),
    [main] finishes its setup, after exactly 24 calls: the script's own
    lookup of the robot in the GUI session's mapping does not fail. *)
Theorem main_setup_completes fuel (w : W) :
  (forall c w0, is_setup_call c = true ->
                exists v w1, respond c w0 = inr (v, w1)) ->
  exists tr env w',
    exec respond (24 + fuel) main_setup w = (tr, Done env w' fuel) /\
    List.length tr = 24%nat.
Proof.
  intros Hanswers.
  assert (Hsliders : forall gui f,
            finishes respond (8 + f) f (create_user_debug_params gui)).
  { intros gui f. unfold create_user_debug_params. cbn [Nat.add].
    finish_calls Hanswers. }
  assert (Hload : forall client f,
            finishes respond (7 + f) f (load_environment client)).
  { intros client f. unfold load_environment. cbn [Nat.add].
    finish_calls Hanswers. }
  assert (Hsetup : finishes respond (24 + fuel) fuel main_setup).
  { unfold main_setup.
    change (24 + fuel)%nat with (S (S (8 + (7 + (7 + fuel))))).
    eapply finishes_seq;
      [apply (@finishes_call _ (connect GUI)); intros ?;
       apply Hanswers; reflexivity | intros gui].
    eapply finishes_seq;
      [apply (@finishes_call _ (connect DIRECT)); intros ?;
       apply Hanswers; reflexivity | intros col].
    eapply finishes_seq; [apply Hsliders | intros ps].
    eapply finishes_bind with (Q := fun bs => exists ids, bs = bodies_of ids).
    - apply Hload.
    - intros f0 w0 tr bs w1 f1 H. apply load_environment_done in H.
      destruct H as (path & ids & _ & ->). exists ids. reflexivity.
    - intros bs (ids & ->).
      eapply finishes_seq; [apply Hload | intros cbs].
      unfold getitem. simpl.
      eapply finishes_seq; apply finishes_ret || (intros ?; apply finishes_ret). }
  destruct (Hsetup w) as (tr & env & w' & E).
  exists tr, env, w'. split; [exact E|].
  apply main_setup_done in E.
  destruct E as (gui & col & m & js & p1 & ids1 & p2 & ids2 & Hjs & -> & _).
  destruct js as [|j1 [|j2 [|j3 [|j4 [|j5 [|j6 [|j7 [|]]]]]]]];
    try discriminate.
  reflexivity.
Qed.

(** *** The collision check comes first *)

Lemma exec_bind_ext {A B : Type} fuel (t : script A)
      (k1 k2 : A -> script B) (w : W) :
  (forall a f w', exec respond f (k1 a) w' = exec respond f (k2 a) w') ->
  exec respond fuel (ITree.bind t k1) w = exec respond fuel (ITree.bind t k2) w.
Proof.
  intros H. rewrite !exec_bind. apply and_then_ext. intros a f w'. apply H.
Qed.

Lemma exec_bind_ret {A B : Type} fuel (a : A) (k : A -> script B) (w : W) :
  exec respond fuel (ITree.bind (Ret a) k) w = exec respond fuel (k a) w.
Proof. rewrite exec_bind, exec_ret, and_then_nil. reflexivity. Qed.

Lemma exec_bind_bind {A B C : Type} fuel (t : script A)
      (k : A -> script B) (h : B -> script C) (w : W) :
  exec respond fuel (ITree.bind (ITree.bind t k) h) w
  = exec respond fuel (ITree.bind t (fun a => ITree.bind (k a) h)) w.
Proof.
  rewrite !exec_bind.
  destruct (exec respond fuel t w) as [tr [a w1 f1 | e w1 | w1]];
    simpl; try reflexivity.
  rewrite exec_bind.
  destruct (exec respond f1 (k a) w1) as [tr2 [b w2 f2 | e w2 | w2]];
    simpl; try reflexivity.
  destruct (exec respond f2 (h b) w2) as [tr3 o3].
  rewrite app_assoc. reflexivity.
Qed.

Lemma exec_bind_read_slider {B : Type} fuel (ps : dict) (name : string)
      (item : Z) (k : float -> script B) (w : W) :
  dict_lookup ps name = Some item ->
  exec respond fuel (ITree.bind (read_slider ps name) k) w
  = exec respond fuel
         (ITree.bind (do_call (readUserDebugParameter item)) k) w.
Proof.
  intros Hitem. unfold read_slider, getitem. rewrite Hitem.
  rewrite exec_bind_bind, exec_bind_ret. reflexivity.
Qed.

Lemma exec_bind_in_collision {B : Type} fuel (det : CollisionDetector)
      (q : list float) (margin : float) (k : bool -> script B) (w : W) :
  exec respond fuel (ITree.bind (in_collision det q margin) k) w
  = exec respond fuel
         (ITree.bind (do_call (query_distances det q))
                     (fun ds => k (too_close ds margin))) w.
Proof.
  unfold in_collision, compute_distances. rewrite exec_bind_bind.
  apply exec_bind_ext. intros ds f w'. apply exec_bind_ret.
Qed.

Lemma gated_call {B : Type} (L : entry -> Prop) (R : trace -> Prop)
      (c : call) (k : ret_type c -> script B) :
  (forall v, L (Returned c v)) -> (forall e, L (Threw c e)) ->
  (forall v, gated respond L (fun tr => R (Returned c v :: tr)) (k v)) ->
  gated respond L R (ITree.bind (do_call c) k).
Proof.
  intros Hv He Hk fuel w. rewrite exec_bind, exec_do_call.
  destruct fuel as [|f]; [left; constructor|].
  destruct (respond c w) as [exn | [v w1]]; simpl.
  - left. repeat constructor. apply He.
  - destruct (Hk v f w1) as [H | H];
      destruct (exec respond f (k v) w1) as [tr o]; simpl in *.
    + left. constructor; [apply Hv | exact H].
    + right. exact H.
Qed.

Lemma gated_read {B : Type} (L : entry -> Prop) (R : trace -> Prop)
      (ps : dict) (name : string) (item : Z) (k : float -> script B) :
  dict_lookup ps name = Some item ->
  (forall e, call_of e = Some (readUserDebugParameter item) -> L e) ->
  (forall v, gated respond L
                   (fun tr => R (Returned (readUserDebugParameter item) v
                                 :: tr))
                   (k v)) ->
  gated respond L R (ITree.bind (read_slider ps name) k).
Proof.
  intros Hitem HL Hk fuel w. rewrite (@exec_bind_read_slider _ fuel ps name item k w Hitem).
  apply (@gated_call _ L R (readUserDebugParameter item) k);
    try exact Hk; intros; apply HL; reflexivity.
Qed.

Lemma gated_in_collision {B : Type} (L : entry -> Prop) (R : trace -> Prop)
      (det : CollisionDetector) (q : list float) (margin : float)
      (k : bool -> script B) :
  (forall e, call_of e = Some (query_distances det q) -> L e) ->
  (forall ds, gated respond L
                    (fun tr => R (Returned (query_distances det q) ds :: tr))
                    (k (too_close ds margin))) ->
  gated respond L R (ITree.bind (in_collision det q margin) k).
Proof.
  intros HL Hk fuel w. rewrite exec_bind_in_collision.
  apply (@gated_call _ L R (query_distances det q)
                     (fun ds => k (too_close ds margin)));
    try exact Hk; intros; apply HL; reflexivity.
Qed.

(** After the check, the branch of a set flag writes no joint, and the
    branch of a clear flag shows no warning, however the turn ends. *)
Lemma act_lines (env : loop_env) (q d : list float) (in_col : bool) :
  always respond
         (fun e => if in_col then is_pose_write e = false
                   else is_warning e = false)
         (fun _ => True)
         ((if negb in_col
           then update_robot_state (robot_id env) q (gui_id env)
           else (do_call warning_text ;; Ret tt)) ;;
          do_call (print "Distance to obstacles = " d) ;;
          do_call (stepSimulation (gui_id env))).
Proof. destruct in_col; simpl negb; walk ltac:(cbv; auto). Qed.

Ltac gate_read :=
  lazymatch goal with
  | |- gated _ _ _ (ITree.bind (read_slider _ _) _) =>
      eapply gated_read;
      [reflexivity | intros ? He; unfold check_line; rewrite He; exact I
      | intros ?]
  end.

(** X7: in any run of a loop turn of [main], finished or not, nothing but
    slider reads and distance queries is logged until the whole collision
    check has been answered (seven joint reads, the distance query, the
    margin read, the query for the flag).  Only then does the turn act,
    and then, if the minimum distance is below the margin, no joint is
    written in whatever follows, even in a turn that fails later; if it is
    not, no warning is shown. *)
Theorem turn_checks_before_acting fuel0 (w0 w1 : W) tr0 env f1 fuel (w : W) :
  exec respond fuel0 main_setup w0 = (tr0, Done env w1 f1) ->
  exists joint_items margin_item,
    user_params env = params_of margin_item joint_items /\
    (Forall check_line (fst (exec respond fuel (loop_body env) w)) \/
     checked_then_acts env joint_items margin_item
                       (fst (exec respond fuel (loop_body env) w))).
Proof.
  intros Hsetup. apply main_setup_done in Hsetup.
  destruct Hsetup as (gui & col & m & js & p1 & ids1 & p2 & ids2
                      & Hjs & _ & ->).
  exists js, m. split; [reflexivity|].
  destruct js as [|j1 [|j2 [|j3 [|j4 [|j5 [|j6 [|j7 [|]]]]]]]];
    try discriminate.
  revert fuel w.
  change (gated respond check_line
                (checked_then_acts
                   (mkLoopEnv gui col (params_of m [j1; j2; j3; j4; j5; j6; j7])
                      (bodies_of ids1) (bodies_of ids2)
                      (mkCollisionDetector col (bodies_of ids2)
                                           monitored_pairs)
                      (kuka_body ids1))
                   [j1; j2; j3; j4; j5; j6; j7] m)
                (loop_body
                   (mkLoopEnv gui col (params_of m [j1; j2; j3; j4; j5; j6; j7])
                      (bodies_of ids1) (bodies_of ids2)
                      (mkCollisionDetector col (bodies_of ids2)
                                           monitored_pairs)
                      (kuka_body ids1)))).
  unfold loop_body, compute_distances. cbn [user_params].
  do 7 gate_read.
  lazymatch goal with
  | |- gated _ ?L ?R (ITree.bind (do_call ?c) ?k) =>
      apply (@gated_call _ L R c k); [intros; exact I | intros; exact I
                                     | intros d]
  end.
  gate_read.
  eapply gated_in_collision;
    [intros ? He; unfold check_line; rewrite He; exact I | intros ds].
  intros fuel w. right.
  eexists [v; v0; v1; v2; v3; v4; v5], d, v6, ds, _.
  split; [reflexivity|]. split; [reflexivity|].
  pose proof (act_lines
                (mkLoopEnv gui col (params_of m [j1; j2; j3; j4; j5; j6; j7])
                   (bodies_of ids1) (bodies_of ids2)
                   (mkCollisionDetector col (bodies_of ids2) monitored_pairs)
                   (kuka_body ids1))
                [v; v0; v1; v2; v3; v4; v5] d (too_close ds v6) fuel w)
    as [Hlines _].
  destruct (too_close ds v6); exact Hlines.
Qed.

(** *** The loop starts after the setup *)

Lemma main_setup_lines :
  always respond setup_line (fun _ => True) main_setup.
Proof.
  unfold main_setup.
  apply always_seq; [walk ltac:(cbv; auto) | intros gui].
  apply always_seq; [walk ltac:(cbv; auto) | intros col].
  apply always_seq; [walk ltac:(cbv; auto) | intros ps].
  eapply always_bind with (Q := fun bs => exists ids, bs = bodies_of ids).
  - apply always_done; [walk ltac:(cbv; auto)|].
    intros fuel w tr bs w' f H. apply load_environment_done in H.
    destruct H as (path & ids & _ & ->). exists ids. reflexivity.
  - intros bs (ids & ->).
    apply always_seq; [walk ltac:(cbv; auto) | intros cbs].
    unfold getitem. simpl. walk ltac:(cbv; auto).
Qed.

(** X8: in any run of [main], either the setup has not finished and the
    log holds nothing but calls of the setup (no slider is read, no
    distance queried, no joint written, nothing stepped, and the script
    itself has raised nothing), or the setup has finished and the log is
    the log of the setup followed by the log of the loop, run from where
    the setup ended. *)
Theorem main_loops_after_setup fuel (w : W) :
  (Forall setup_line (fst (exec respond fuel main w)) /\
   unfinished (snd (exec respond fuel main_setup w))) \/
  exists tr0 env w1 f1,
    exec respond fuel main_setup w = (tr0, Done env w1 f1) /\
    Forall setup_line tr0 /\
    fst (exec respond fuel main w)
    = tr0 ++ fst (exec respond f1 (main_loop env) w1).
Proof.
  destruct (main_setup_lines fuel w) as [Hlines _].
  unfold main. rewrite exec_bind.
  destruct (exec respond fuel main_setup w) as [tr0 [env w1 f1 | e w1 | w1]];
    simpl in *.
  - right. exists tr0, env, w1, f1.
    split; [reflexivity|]. split; [exact Hlines|].
    destruct (exec respond f1 (main_loop env) w1). reflexivity.
  - left. split; [exact Hlines | exact I].
  - left. split; [exact Hlines | exact I].
Qed.

End Helpers.

(** ** The helper functions on the simulator *)

(** On the fresh simulator the eight sliders get the ids 0 to 7. *)
Lemma create_user_debug_params_sliders_witness :
  exists m j1 j2 j3 j4 j5 j6 j7,
    let joints := [("lbr_iiwa_joint1", j1); ("lbr_iiwa_joint2", j2);
                   ("lbr_iiwa_joint3", j3); ("lbr_iiwa_joint4", j4);
                   ("lbr_iiwa_joint5", j5); ("lbr_iiwa_joint6", j6);
                   ("lbr_iiwa_joint7", j7)] in
    sliders_log 0 0 [1; 2; 3; 4; 5; 6; 7]
    = Returned (addUserDebugParameter "collision_margin" (PyInt 0)
                  (PyFloat 0.2) (PyFloat 0.01) 0) m
      :: map (fun p => Returned (addUserDebugParameter (fst p)
                                   (PyFloat (-2 * np_pi))
                                   (PyFloat (2 * np_pi)) (PyInt 0) 0)
                                (snd p))
             joints /\
    params_of 0 [1; 2; 3; 4; 5; 6; 7] = ("collision_margin", m) :: joints /\
    NoDup (keys (params_of 0 [1; 2; 3; 4; 5; 6; 7])).
Proof.
  eapply (create_user_debug_params_sliders Sim.respond 100 0 Sim.clear).
  vm_compute. reflexivity.
Defined.

(** On the started simulator the seven joints of the arm are written with
    the seven values of the pose. *)
Lemma update_robot_state_writes_witness :
  exists n,
    n <= Z.of_nat (List.length Sim.zero_pose) /\
    fst (exec Sim.respond 100 (update_robot_state 1 Sim.zero_pose 0)
              (Sim.started Sim.clear))
    = Returned (getNumJoints 1 0) n
      :: map (fun i => Returned (resetJointState 1 (Z.of_nat i)
                                   (nth i Sim.zero_pose 0%float) 0) tt)
             (seq 0 (Z.to_nat n)).
Proof.
  eapply (update_robot_state_writes Sim.respond 100 1 0 Sim.zero_pose
                                    (Sim.started Sim.clear)).
  vm_compute. reflexivity.
Defined.

Lemma update_robot_state_completes_witness :
  exists w',
    exec Sim.respond (S (Z.to_nat 7 + 0))
         (update_robot_state 1 Sim.zero_pose 0) (Sim.started Sim.clear)
    = (Returned (getNumJoints 1 0) 7
       :: map (fun i => Returned (resetJointState 1 (Z.of_nat i)
                                    (nth i Sim.zero_pose 0%float) 0) tt)
              (seq 0 (Z.to_nat 7)),
       Done tt w' 0%nat).
Proof.
  apply (@update_robot_state_completes
           _ Sim.respond 1 0 Sim.zero_pose
           (Sim.started Sim.clear) (Sim.started Sim.clear) 7 0%nat).
  - reflexivity.
  - intros i v w2. exists w2. reflexivity.
  - vm_compute. discriminate.
Defined.

(** On the fresh simulator [main] wires the GUI session 0, the headless
    session 1 and the robot body 1. *)
Lemma main_setup_wiring_witness :
  exists margin_item joint_items path1 ids1 path2 ids2,
    Sim.setup_log
    = Returned (connect GUI) (gui_id Sim.env)
      :: Returned (connect DIRECT) (col_id Sim.env)
      :: sliders_log (gui_id Sim.env) margin_item joint_items
      ++ environment_log (gui_id Sim.env) path1 ids1
      ++ environment_log (col_id Sim.env) path2 ids2 /\
    user_params Sim.env = params_of margin_item joint_items /\
    bodies Sim.env = bodies_of ids1 /\
    collision_bodies Sim.env = bodies_of ids2 /\
    det_client (col_detector Sim.env) = col_id Sim.env /\
    det_bodies (col_detector Sim.env) = collision_bodies Sim.env /\
    dict_lookup (bodies Sim.env) "robot" = Some (robot_id Sim.env) /\
    List.length Sim.setup_log = 24%nat.
Proof.
  exact (main_setup_wiring Sim.respond 100 Sim.clear sim_setup_clear).
Defined.

Lemma sim_answers_setup (c : call) (w : Sim.world) :
  is_setup_call c = true -> exists v w1, Sim.respond c w = inr (v, w1).
Proof. destruct c; try discriminate; intros _; simpl; eauto. Qed.

(** The simulator answers every call of the setup. *)
Lemma main_setup_completes_witness :
  exists tr env w',
    exec Sim.respond (24 + 0) main_setup Sim.clear = (tr, Done env w' 0%nat) /\
    List.length tr = 24%nat.
Proof.
  exact (main_setup_completes Sim.respond 0 Sim.clear sim_answers_setup).
Defined.

(** On the simulator with the arm near a cube, the turn checks and then
    warns. *)
Lemma turn_checks_before_acting_witness :
  exists joint_items margin_item,
    user_params Sim.env = params_of margin_item joint_items /\
    (Forall check_line
            (fst (exec Sim.respond 100 (loop_body Sim.env)
                       (Sim.started Sim.close))) \/
     checked_then_acts Sim.env joint_items margin_item
       (fst (exec Sim.respond 100 (loop_body Sim.env)
                  (Sim.started Sim.close)))).
Proof.
  exact (turn_checks_before_acting
           Sim.respond 100 Sim.close 100 (Sim.started Sim.close)
           sim_setup_close).
Defined.

(** ** Turns come to an end *)

Section Settled.

Variable W : Type.
Variable respond : forall c : call, W -> pyexn + (ret_type c * W).

Lemma settles_exec_eq {A : Type} (n : nat) (t1 t2 : script A) :
  (forall fuel w, exec respond fuel t1 w = exec respond fuel t2 w) ->
  settles respond n t2 -> settles respond n t1.
Proof. intros Heq H fuel w. rewrite Heq. apply H. Qed.

Lemma settles_ret {A : Type} (a : A) : settles respond 0 (Ret a).
Proof. intros fuel w. rewrite exec_ret. simpl. lia. Qed.

Lemma settles_call (c : call) : settles respond 1 (do_call c).
Proof.
  intros fuel w. rewrite exec_do_call. simpl.
  destruct (respond c w) as [exn | [v w1]]; simpl; [exact I | lia].
Qed.

Lemma settles_weaken {A : Type} (n m : nat) (t : script A) :
  (n <= m)%nat -> settles respond n t -> settles respond m t.
Proof.
  intros Hnm H fuel w.
  replace (m + fuel)%nat with (n + (m - n + fuel))%nat by lia.
  specialize (H (m - n + fuel)%nat w).
  destruct (snd (exec respond (n + (m - n + fuel)) t w)); auto. lia.
Qed.

Lemma settles_bind {A B : Type} (n1 n2 : nat) (t : script A)
      (k : A -> script B) :
  settles respond n1 t -> (forall a, settles respond n2 (k a)) ->
  settles respond (n1 + n2) (ITree.bind t k).
Proof.
  intros Ht Hk fuel w. rewrite exec_bind.
  replace (n1 + n2 + fuel)%nat with (n1 + (n2 + fuel))%nat by lia.
  specialize (Ht (n2 + fuel)%nat w).
  destruct (exec respond (n1 + (n2 + fuel)) t w)
    as [tr [a w1 f1 | e w1 | w1]]; simpl in *; try assumption.
  specialize (Hk a (f1 - n2)%nat w1).
  replace (n2 + (f1 - n2))%nat with f1 in Hk by lia.
  destruct (exec respond f1 (k a) w1) as [tr2 [b w2 f2 | e w2 | w2]];
    simpl in *; try assumption. lia.
Qed.

Lemma settles_call_then {B : Type} (n : nat) (c : call)
      (k : ret_type c -> script B) :
  (forall v, settles respond n (k v)) ->
  settles respond (S n) (ITree.bind (do_call c) k).
Proof. intros Hk. apply (@settles_bind _ _ 1 n); [apply settles_call | exact Hk]. Qed.

Lemma settles_read {B : Type} (n : nat) (ps : dict) (name : string)
      (item : Z) (k : float -> script B) :
  dict_lookup ps name = Some item ->
  (forall v, settles respond n (k v)) ->
  settles respond (S n) (ITree.bind (read_slider ps name) k).
Proof.
  intros Hitem Hk.
  apply (@settles_exec_eq _ (S n) _
           (ITree.bind (do_call (readUserDebugParameter item)) k)).
  - intros fuel w. apply exec_bind_read_slider. exact Hitem.
  - apply (@settles_call_then _ n (readUserDebugParameter item) k). exact Hk.
Qed.

Lemma settles_in_collision {B : Type} (n : nat) (det : CollisionDetector)
      (q : list float) (margin : float) (k : bool -> script B) :
  (forall b, settles respond n (k b)) ->
  settles respond (S n) (ITree.bind (in_collision det q margin) k).
Proof.
  intros Hk.
  apply (@settles_exec_eq _ (S n) _
           (ITree.bind (do_call (query_distances det q))
                       (fun ds => k (too_close ds margin)))).
  - intros fuel w. apply exec_bind_in_collision.
  - apply (@settles_call_then _ n (query_distances det q)
             (fun ds => k (too_close ds margin))).
    intros ds. apply Hk.
Qed.

(** The joint loop takes at most one event per element of [state] left,
    and one more: it stops at the end of [state] whatever the joint
    count. *)
Lemma joint_loop_settles (robot client : Z) (state : list float)
      (len : nat) :
  forall start : nat,
    (start <= List.length state)%nat ->
    settles respond (List.length state - start + 1)
            (for_each (map Z.of_nat (seq start len)) (fun joint_idx =>
               v <- index state joint_idx ;;
               do_call (resetJointState robot joint_idx v client))).
Proof.
  induction len as [|len IH]; intros start Hstart.
  - apply (@settles_weaken _ 0); [lia | apply settles_ret].
  - cbn [for_each map seq]. intros fuel w.
    rewrite exec_bind_bind, exec_bind, exec_index, array_get_nat.
    destruct (nth_error state start) as [v|] eqn:E.
    + assert (Hlt : (start < List.length state)%nat)
        by (apply nth_error_Some; congruence).
      rewrite and_then_nil.
      replace (List.length state - start + 1)%nat
        with (S (List.length state - S start + 1)) by lia.
      apply (@settles_call_then _ (List.length state - S start + 1)
               (resetJointState robot (Z.of_nat start) v client)
               (fun _ => for_each (map Z.of_nat (seq (S start) len))
                  (fun joint_idx =>
                     v0 <- index state joint_idx ;;
                     do_call (resetJointState robot joint_idx v0 client)))).
      intros _. apply IH. lia.
    + replace (List.length state - start + 1 + fuel)%nat
        with (S (List.length state - start + fuel)) by lia.
      simpl. exact I.
Qed.

Lemma update_robot_state_settles (robot client : Z) (state : list float) :
  settles respond (List.length state + 2)
          (update_robot_state robot state client).
Proof.
  unfold update_robot_state.
  replace (List.length state + 2)%nat
    with (S (List.length state - 0 + 1)) by lia.
  apply (@settles_call_then _ (List.length state - 0 + 1)
           (getNumJoints robot client)).
  intros n. apply joint_loop_settles. lia.
Qed.

(** A turn of the loop [main] runs takes at most 21 events. *)
Lemma loop_body_settles (env : loop_env) (m : Z) (js : list Z) :
  List.length js = 7%nat -> user_params env = params_of m js ->
  settles respond 21 (loop_body env).
Proof.
  intros Hjs Hps.
  destruct js as [|j1 [|j2 [|j3 [|j4 [|j5 [|j6 [|j7 [|]]]]]]]];
    try discriminate.
  unfold loop_body, compute_distances. rewrite Hps.
  do 7 (eapply settles_read; [reflexivity | intros ?]).
  lazymatch goal with
  | |- settles _ (S ?n) (ITree.bind (do_call ?c) ?k) =>
      apply (@settles_call_then _ n c k); intros d
  end.
  eapply settles_read; [reflexivity | intros margin].
  apply settles_in_collision. intros in_col.
  apply (@settles_bind _ _ 9 2).
  - destruct in_col; simpl negb.
    + apply (@settles_weaken _ 1); [lia|].
      apply (@settles_call_then _ 0 warning_text (fun _ => Ret tt)).
      intros _. apply settles_ret.
    + apply (update_robot_state_settles (robot_id env) (gui_id env)
               [v; v0; v1; v2; v3; v4; v5]).
  - intros _.
    apply (@settles_call_then _ 1 (print "Distance to obstacles = " d)
             (fun _ => do_call (stepSimulation (gui_id env)))).
    intros _. apply settles_call.
Qed.

End Settled.

(** ** Every turn of the loop *)

Section EveryTurn.

Variable W : Type.
Variable respond : forall c : call, W -> pyexn + (ret_type c * W).

(** A call that raised in a run was refused by the simulator. *)
Lemma exec_threw_refused {A : Type} (fuel : nat) :
  forall (t : script A) (w : W) c exn,
    In (Threw c exn) (fst (exec respond fuel t w)) ->
    exists w', respond c w' = inl exn.
Proof.
  induction fuel as [|n IH]; intros t w c exn; rewrite exec_unfold;
    destruct (observe t) as [r | t0 | X e k]; simpl; try tauto.
  - apply IH.
  - destruct e as [c0 | exn0]; simpl.
    + destruct (respond c0 w) as [exn1 | [v w1]] eqn:E; simpl.
      * intros [H | []]. inversion H; subst. exists w. exact E.
      * destruct (exec respond n (k v) w1) as [tr o] eqn:E1. simpl.
        intros [H | H]; [discriminate|].
        apply (IH (k v) w1). rewrite E1. exact H.
    + intros [H | []]. discriminate.
Qed.

Lemma always_true {A : Type} (t : script A) :
  always respond (fun _ => True) (fun _ => True) t.
Proof.
  intros fuel w. split; [|intros; exact I].
  apply Forall_forall. intros; exact I.
Qed.

Lemma turn_line_turn_call (env : loop_env) (c : call) (exn : pyexn) :
  turn_line env (Threw c exn) -> is_turn_call c = true.
Proof. unfold turn_line. destruct c; simpl; try reflexivity; tauto. Qed.

(** An IndexError in a turn means the GUI session reported more than
    seven joints for the robot. *)
Lemma loop_body_index_error_cause (env : loop_env) :
  always respond
         (fun e => e = ScriptRaised IndexError ->
                   exists n w w',
                     respond (getNumJoints (robot_id env) (gui_id env)) w
                     = inr (n, w') /\ 7 < n)
         (fun _ => True) (loop_body env).
Proof.
  assert (Hupdate : forall q, List.length q = 7%nat ->
            always respond
              (fun e => e = ScriptRaised IndexError ->
                        exists n w w',
                          respond (getNumJoints (robot_id env) (gui_id env)) w
                          = inr (n, w') /\ 7 < n)
              (fun _ => True)
              (update_robot_state (robot_id env) q (gui_id env))).
  { intros q Hq. unfold update_robot_state.
    eapply always_bind
      with (Q := fun n : Z =>
                   exists w w',
                     respond (getNumJoints (robot_id env) (gui_id env)) w
                     = inr (n, w')).
    - apply (@always_call_answer _ respond _
               (getNumJoints (robot_id env) (gui_id env))).
      + intros w n w' H. split; [intros; discriminate | eauto].
      + intros e H. discriminate.
    - intros n (w & w' & Hn). destruct (Z_le_gt_dec n 7) as [Hle | Hgt].
      + eapply always_weaken;
          [| | apply (@joint_loop_safe _ respond (robot_id env) (gui_id env)
                        q n); rewrite Hq; exact Hle].
        * intros e He Heq. subst e. destruct He.
        * auto.
      + eapply always_weaken; [| | apply always_true].
        * intros e _ _. exists n, w, w'. split; [exact Hn | lia].
        * auto. }
  walk ltac:(first [exact I | intros; discriminate]).
Qed.

(** Every turn of the loop [main] runs comes to its end within 21
    events. *)
Lemma loop_body_turn_settled (env : loop_env) (m : Z) (js : list Z)
      fuel (w : W) :
  List.length js = 7%nat -> user_params env = params_of m js ->
  turn_settled respond env (exec respond (21 + fuel) (loop_body env) w).
Proof.
  intros Hjs Hps. unfold turn_settled.
  pose proof (loop_body_settles respond env Hjs Hps fuel w) as Hsettles.
  pose proof (exec_propagates respond (21 + fuel) (loop_body env) w) as Hlast.
  destruct (loop_body_lines respond env (21 + fuel)%nat w) as [Hlines _].
  destruct (loop_body_index_errors respond env Hjs Hps (21 + fuel)%nat w)
    as [Hindex _].
  destruct (loop_body_index_error_cause env (21 + fuel)%nat w) as [Hcause _].
  pose proof (@exec_threw_refused unit (21 + fuel) (loop_body env) w)
    as Hrefused.
  destruct (exec respond (21 + fuel) (loop_body env) w)
    as [tr [u w1 f | exn w1 | w1]]; simpl in *;
    try assumption; try exact I.
  destruct Hlast as (before & x & -> & Hx & _).
  exists before, x. split; [reflexivity|].
  assert (Hin : In x (before ++ [x]))
    by (apply in_or_app; right; left; reflexivity).
  rewrite Forall_forall in Hlines, Hindex, Hcause.
  destruct x as [c v | c e | e]; simpl in Hx.
  - discriminate.
  - inversion Hx; subst e. left.
    destruct (Hrefused c exn Hin) as (w' & Hw').
    exists c, w'. split; [reflexivity|]. split; [|exact Hw'].
    apply (turn_line_turn_call env c exn). apply Hlines. exact Hin.
  - inversion Hx; subst e. right.
    assert (exn = IndexError) by (apply (Hindex _ Hin)). subst exn.
    split; [reflexivity|]. split; [reflexivity|].
    apply (Hcause _ Hin). reflexivity.
Qed.

Lemma setup_shapes_params fuel (w w' : W) tr env f :
  exec respond fuel main_setup w = (tr, Done env w' f) ->
  exists m js, List.length js = 7%nat /\ user_params env = params_of m js.
Proof.
  intros H. apply main_setup_done in H.
  destruct H as (gui & col & m & js & p1 & ids1 & p2 & ids2 & Hjs & _ & ->).
  exists m, js. split; [exact Hjs | reflexivity].
Qed.

(** On a simulator that answers the calls of a turn and reports at most
    seven joints, every turn of the loop [main] runs finishes, within 21
    events. *)
Lemma loop_body_completes fuel0 (w0 w1 : W) tr0 env f1 :
  exec respond fuel0 main_setup w0 = (tr0, Done env w1 f1) ->
  answers_turns respond env ->
  forall fuel w, exists tr u w' f,
    exec respond (21 + fuel) (loop_body env) w = (tr, Done u w' f).
Proof.
  intros Hsetup [Hanswers Hjoints] fuel w.
  destruct (setup_shapes_params _ _ Hsetup) as (m & js & Hjs & Hps).
  pose proof (loop_body_turn_settled env fuel w Hjs Hps) as H.
  unfold turn_settled in H.
  destruct (exec respond (21 + fuel) (loop_body env) w)
    as [tr [u w' f | exn w' | w']]; simpl in H.
  - exists tr, u, w', f. reflexivity.
  - exfalso. destruct H as (before & x & _ & [H | H]).
    + destruct H as (c & w2 & _ & Hc & Hrefused).
      destruct (Hanswers c w2 Hc) as (v & w3 & Hv). congruence.
    + destruct H as (_ & _ & n & w2 & w3 & Hn & Hgt).
      apply Hjoints in Hn. lia.
  - destruct H.
Qed.

(** C1: every turn of the loop [main] runs comes to its end within 21
    events, on any simulator: it finishes, unless it is stopped by a call
    the simulator refuses or by an overrun of the pose (more than seven
    joints reported); so on a simulator that answers the calls of a turn
    and reports at most seven joints, every turn finishes.  And in every
    finished turn, with [q] the values read
    from the seven joint sliders, [margin] the value read from the margin
    slider and [ds] the distances the collision check computed for [q]: if
    the minimum of [ds] is below [margin], no joint of the GUI session is
    written and the one debug text of the turn is the red warning;
    otherwise no debug text is added and the joints of the robot in the GUI
    session are written with the values of [q], one per joint the session
    reports, as [update_robot_state] does. *)
Theorem pose_applied_unless_colliding fuel0 (w0 w1 : W) tr0 env f1 :
  exec respond fuel0 main_setup w0 = (tr0, Done env w1 f1) ->
  (forall fuel w,
      turn_settled respond env
                   (exec respond (21 + fuel) (loop_body env) w)) /\
  (answers_turns respond env ->
   forall fuel w, exists tr u w' f,
     exec respond (21 + fuel) (loop_body env) w = (tr, Done u w' f)) /\
  (forall fuel w tr u w' f,
      exec respond fuel (loop_body env) w = (tr, Done u w' f) ->
      exists joint_items margin_item q d margin ds branch,
        user_params env = params_of margin_item joint_items /\
        tr = turn_log env joint_items margin_item q d margin ds branch /\
        if too_close ds margin
        then filter is_pose_write tr = [] /\
             (exists item,
                 filter is_warning tr = [Returned warning_text item]) /\
             colour_of warning_text = red
        else filter is_warning tr = [] /\
             exists n,
               branch = Returned (getNumJoints (robot_id env) (gui_id env)) n
                        :: resets_log (robot_id env) (gui_id env)
                                      (range n) q /\
               filter is_pose_write tr
               = resets_log (robot_id env) (gui_id env) (range n) q).
Proof.
  intros Hsetup. split; [|split].
  - intros fuel w.
    destruct (setup_shapes_params _ _ Hsetup) as (m & js & Hjs & Hps).
    exact (loop_body_turn_settled env fuel w Hjs Hps).
  - exact (loop_body_completes _ _ Hsetup).
  - intros fuel w tr u w' f Hturn.
    exact (finished_turn_branch respond fuel0 w0 fuel w Hsetup Hturn).
Qed.

(** C3, as the loop does it: every turn comes to its end within 21 events
    (it finishes, unless a refused call or an overrun of the pose stops
    it; on a simulator that answers the calls of a turn and reports at
    most seven joints, it finishes), and every finished turn reads the seven joint sliders, queries the
    distances, reads the margin slider, queries the distances again for the
    collision flag, takes the branch (the pose when clear, the warning
    otherwise), prints the distances and steps the GUI simulation; that
    step is the turn's last call and its only step, whichever branch was
    taken. *)
Theorem turn_order fuel0 (w0 w1 : W) tr0 env f1 :
  exec respond fuel0 main_setup w0 = (tr0, Done env w1 f1) ->
  (forall fuel w,
      turn_settled respond env
                   (exec respond (21 + fuel) (loop_body env) w)) /\
  (answers_turns respond env ->
   forall fuel w, exists tr u w' f,
     exec respond (21 + fuel) (loop_body env) w = (tr, Done u w' f)) /\
  (forall fuel w tr u w' f,
      exec respond fuel (loop_body env) w = (tr, Done u w' f) ->
      exists joint_items margin_item q d margin ds branch,
        user_params env = params_of margin_item joint_items /\
        List.length joint_items = 7%nat /\ List.length q = 7%nat /\
        tr = reads_log joint_items q
             ++ [Returned (query_distances (col_detector env) q) d;
                 Returned (readUserDebugParameter margin_item) margin;
                 Returned (query_distances (col_detector env) q) ds]
             ++ branch
             ++ [Returned (print "Distance to obstacles = " d) tt;
                 Returned (stepSimulation (gui_id env)) tt] /\
        branch_log env q (too_close ds margin) branch /\
        filter is_step tr = [Returned (stepSimulation (gui_id env)) tt]).
Proof.
  intros Hsetup. split; [|split].
  - intros fuel w.
    destruct (setup_shapes_params _ _ Hsetup) as (m & js & Hjs & Hps).
    exact (loop_body_turn_settled env fuel w Hjs Hps).
  - exact (loop_body_completes _ _ Hsetup).
  - intros fuel w tr u w' f Hturn.
    exact (finished_turn_order respond fuel0 w0 fuel w Hsetup Hturn).
Qed.

(** C4: every turn comes to its end within 21 events (it finishes, unless
    a refused call or an overrun of the pose stops it; on a simulator that
    answers the calls of a turn and reports at most seven joints, it
    finishes), and every finished turn reads exactly eight sliders: the seven joint sliders [main]
    created, in order, whose values are the vector [q] (seven elements)
    handed to the collision helper and to the robot, and the margin slider;
    no other line of the turn's log, given in full, is a slider read. *)
Theorem turn_reads_eight_sliders fuel0 (w0 w1 : W) tr0 env f1 :
  exec respond fuel0 main_setup w0 = (tr0, Done env w1 f1) ->
  (forall fuel w,
      turn_settled respond env
                   (exec respond (21 + fuel) (loop_body env) w)) /\
  (answers_turns respond env ->
   forall fuel w, exists tr u w' f,
     exec respond (21 + fuel) (loop_body env) w = (tr, Done u w' f)) /\
  (forall fuel w tr u w' f,
      exec respond fuel (loop_body env) w = (tr, Done u w' f) ->
      exists joint_items margin_item q d margin ds branch,
        List.length joint_items = 7%nat /\ List.length q = 7%nat /\
        user_params env = params_of margin_item joint_items /\
        tr = turn_log env joint_items margin_item q d margin ds branch /\
        filter is_slider_read tr
        = reads_log joint_items q
          ++ [Returned (readUserDebugParameter margin_item) margin] /\
        List.length (filter is_slider_read tr) = 8%nat).
Proof.
  intros Hsetup. split; [|split].
  - intros fuel w.
    destruct (setup_shapes_params _ _ Hsetup) as (m & js & Hjs & Hps).
    exact (loop_body_turn_settled env fuel w Hjs Hps).
  - exact (loop_body_completes _ _ Hsetup).
  - intros fuel w tr u w' f Hturn.
    exact (finished_turn_reads respond fuel0 w0 fuel w Hsetup Hturn).
Qed.

End EveryTurn.

(** ** Failed runs *)

Section Failures.

Variable W : Type.
Variable respond : forall c : call, W -> pyexn + (ret_type c * W).

Lemma fails_at_here (c : call) (v : ret_type c) (rest : trace) (exn : pyexn) :
  fails_at (Returned c v :: rest) [Threw c exn] exn.
Proof. exists [], c, v, rest. split; reflexivity. Qed.

Lemma fails_at_cons (x : entry) (full tr : trace) (exn : pyexn) :
  fails_at full tr exn -> fails_at (x :: full) (x :: tr) exn.
Proof.
  intros (before & c & v & rest & -> & ->).
  exists (x :: before), c, v, rest. split; reflexivity.
Qed.

Lemma breaks_ret {A : Type} (a : A) (F : trace -> pyexn -> Prop) :
  breaks respond (Ret a) F.
Proof. intros fuel w tr exn w' H. rewrite exec_ret in H. discriminate. Qed.

Lemma breaks_weaken {A : Type} (t : script A) (F1 F2 : trace -> pyexn -> Prop) :
  (forall tr exn, F1 tr exn -> F2 tr exn) ->
  breaks respond t F1 -> breaks respond t F2.
Proof. intros HF H fuel w tr exn w' E. apply HF. eapply H. exact E. Qed.

Lemma breaks_exec_eq {A : Type} (t1 t2 : script A)
      (F : trace -> pyexn -> Prop) :
  (forall fuel w, exec respond fuel t1 w = exec respond fuel t2 w) ->
  breaks respond t2 F -> breaks respond t1 F.
Proof. intros Heq H fuel w tr exn w' E. rewrite Heq in E. eapply H. exact E. Qed.

Lemma breaks_call_then {B : Type} (c : call) (k : ret_type c -> script B)
      (F : trace -> pyexn -> Prop) :
  (forall exn, F [Threw c exn] exn) ->
  (forall v, breaks respond (k v) (fun tr exn => F (Returned c v :: tr) exn)) ->
  breaks respond (ITree.bind (do_call c) k) F.
Proof.
  intros Hc Hk fuel w tr exn w' H. rewrite exec_bind, exec_do_call in H.
  destruct fuel as [|f]; [discriminate|].
  destruct (respond c w) as [e | [v w1]]; simpl in H.
  - inversion H; subst. apply Hc.
  - destruct (exec respond f (k v) w1) as [tr1 o1] eqn:E.
    inversion H; subst. eapply (Hk v). exact E.
Qed.

Lemma breaks_index_then {B : Type} (state : list float) (i : Z)
      (k : float -> script B) (F : trace -> pyexn -> Prop) :
  (array_get state i = None -> F [ScriptRaised IndexError] IndexError) ->
  (forall v, array_get state i = Some v -> breaks respond (k v) F) ->
  breaks respond (ITree.bind (index state i) k) F.
Proof.
  intros Hnone Hsome fuel w tr exn w' H. rewrite exec_bind, exec_index in H.
  destruct (array_get state i) as [v|].
  - rewrite and_then_nil in H. eapply (Hsome v); [reflexivity | exact H].
  - destruct fuel; [discriminate|]. simpl in H. inversion H; subst.
    apply Hnone. reflexivity.
Qed.

Ltac break_calls fail_tac :=
  lazymatch goal with
  | |- breaks _ (ITree.bind (do_call ?c) ?k) ?F =>
      apply (@breaks_call_then _ c k F);
      [intros ?; cbv beta; fail_tac
      |let v := fresh "v" in
       intros v; cbn [ret_type] in v;
       try (match type of v with unit => destruct v end);
       break_calls fail_tac]
  | |- breaks _ (Ret _) _ => apply breaks_ret
  end.

Ltac found_failure :=
  repeat apply fails_at_cons; apply fails_at_here.

Lemma load_environment_breaks (client : Z) :
  breaks respond (load_environment client)
         (fun tr exn => exists path ids,
              fails_at (environment_log client path ids) tr exn).
Proof.
  unfold load_environment.
  break_calls ltac:(eexists _, (mkBodyIds _ _ _ _ _);
                    unfold environment_log; simpl; found_failure).
  Unshelve. all: first [exact 0 | exact ""].
Qed.

Lemma create_user_debug_params_breaks (gui : Z) :
  breaks respond (create_user_debug_params gui)
         (fun tr exn => exists m js,
              List.length js = 7%nat /\ fails_at (sliders_log gui m js) tr exn).
Proof.
  unfold create_user_debug_params.
  break_calls ltac:(eexists _, [_; _; _; _; _; _; _];
                    split; [reflexivity|];
                    unfold sliders_log; simpl; found_failure).
  Unshelve. all: exact 0.
Qed.

(** A failed joint loop stopped at a joint write that raised, or at the
    end of [state]. *)
Lemma joint_loop_breaks (robot client : Z) (state : list float) (len : nat) :
  forall start : nat,
    breaks respond
      (for_each (map Z.of_nat (seq start len)) (fun joint_idx =>
         v <- index state joint_idx ;;
         do_call (resetJointState robot joint_idx v client)))
      (fun tr exn =>
         fails_at (resets_log robot client (map Z.of_nat (seq start len))
                              (skipn start state)) tr exn \/
         ((List.length state < start + len)%nat /\ exn = IndexError /\
          tr = resets_log robot client (map Z.of_nat (seq start len))
                          (skipn start state)
               ++ [ScriptRaised IndexError])).
Proof.
  induction len as [|len IH]; intros start; [apply breaks_ret|].
  cbn [for_each map seq].
  eapply breaks_exec_eq; [intros fuel w; apply exec_bind_bind|].
  apply breaks_index_then.
  - rewrite array_get_nat. intros Hnone. apply nth_error_None in Hnone.
    right. split; [lia|]. split; [reflexivity|].
    rewrite skipn_all2 by lia. reflexivity.
  - rewrite array_get_nat. intros v Hv.
    rewrite (skipn_nth_error _ _ Hv).
    apply (@breaks_call_then _
             (resetJointState robot (Z.of_nat start) v client)
             (fun _ => for_each (map Z.of_nat (seq (S start) len))
                (fun joint_idx =>
                   v0 <- index state joint_idx ;;
                   do_call (resetJointState robot joint_idx v0 client)))).
    + intros exn. left. apply fails_at_here.
    + intros u. eapply breaks_weaken; [|apply (IH (S start))].
      intros tr exn [H | (Hlen & -> & ->)]; destruct u.
      * left. apply fails_at_cons. exact H.
      * right. split; [lia|]. split; reflexivity.
Qed.

Lemma update_robot_state_breaks (robot client : Z) (state : list float) :
  breaks respond (update_robot_state robot state client)
    (fun tr exn => exists n,
       fails_at (Returned (getNumJoints robot client) n
                 :: resets_log robot client (range n) state) tr exn \/
       (Z.of_nat (List.length state) < n /\ exn = IndexError /\
        tr = Returned (getNumJoints robot client) n
             :: resets_log robot client (range n) state
             ++ [ScriptRaised IndexError])).
Proof.
  unfold update_robot_state.
  apply (@breaks_call_then _ (getNumJoints robot client)).
  - intros exn. exists 0. left. apply fails_at_here.
  - intros n. eapply breaks_weaken;
      [|apply (joint_loop_breaks robot client state (Z.to_nat n) 0)].
    intros tr exn [H | (Hlen & -> & ->)]; exists n.
    + left. apply fails_at_cons. exact H.
    + right. split; [lia|]. split; reflexivity.
Qed.

(** C8: nothing is caught.  A failed run of [load_environment], of
    [create_user_debug_params] or of [update_robot_state] has made the
    calls of the function in order up to one that raised, and stopped there
    with the exception that call raised: no later call is made, nothing is
    retried or cleaned up ([update_robot_state] may also stop at the end of
    [state], with IndexError).  In any run of [main], a line that raises
    is the last line of the log and [main] has failed with the exception
    raised; a failed run of [main] ends on a call the simulator refused,
    with that call's exception, or on the IndexError of the array indexing. *)
Theorem failures_propagate fuel (w : W) (client_id gui robot : Z)
        (state : list float) :
  (forall tr exn w',
      exec respond fuel (load_environment client_id) w = (tr, Failed exn w') ->
      exists path ids, fails_at (environment_log client_id path ids) tr exn) /\
  (forall tr exn w',
      exec respond fuel (create_user_debug_params gui) w
      = (tr, Failed exn w') ->
      exists m js, List.length js = 7%nat /\
                   fails_at (sliders_log gui m js) tr exn) /\
  (forall tr exn w',
      exec respond fuel (update_robot_state robot state client_id) w
      = (tr, Failed exn w') ->
      exists n,
        fails_at (Returned (getNumJoints robot client_id) n
                  :: resets_log robot client_id (range n) state) tr exn \/
        (Z.of_nat (List.length state) < n /\ exn = IndexError /\
         tr = Returned (getNumJoints robot client_id) n
              :: resets_log robot client_id (range n) state
              ++ [ScriptRaised IndexError])) /\
  uncaught (exec respond fuel main w) /\
  (forall tr exn w',
      exec respond fuel main w = (tr, Failed exn w') ->
      exists before x,
        tr = before ++ [x] /\
        Forall (fun y => raises y = None) before /\
        ((exists c w0, x = Threw c exn /\ respond c w0 = inl exn) \/
         (x = ScriptRaised IndexError /\ exn = IndexError))).
Proof.
  split; [|split; [|split; [|split]]].
  - intros tr exn w' H. exact (load_environment_breaks client_id _ _ H).
  - intros tr exn w' H. exact (create_user_debug_params_breaks gui _ _ H).
  - intros tr exn w' H.
    exact (update_robot_state_breaks robot client_id state _ _ H).
  - apply exec_uncaught.
  - intros tr exn w' H.
    pose proof (exec_propagates respond fuel main w) as Hlast.
    destruct (main_index_errors respond fuel w) as [Hindex _].
    pose proof (@exec_threw_refused _ respond unit fuel main w) as Hrefused.
    rewrite H in Hlast, Hindex, Hrefused. simpl in *.
    destruct Hlast as (before & x & -> & Hx & Hbefore).
    exists before, x. split; [reflexivity|]. split; [exact Hbefore|].
    assert (Hin : In x (before ++ [x]))
      by (apply in_or_app; right; left; reflexivity).
    rewrite Forall_forall in Hindex.
    destruct x as [c v | c e | e]; simpl in Hx.
    + discriminate.
    + inversion Hx; subst e. left.
      destruct (Hrefused c exn Hin) as (w0 & Hw0). exists c, w0. auto.
    + inversion Hx; subst e. right.
      assert (exn = IndexError) by (apply (Hindex _ Hin)). subst exn. auto.
Qed.

End Failures.

(** ** The detector's pairs, and the bounds of the state vector *)

Section Bounds.

Variable W : Type.
Variable respond : forall c : call, W -> pyexn + (ret_type c * W).

Lemma filter_query_branch (env : loop_env) (q : list float) (b : bool)
      (branch : trace) :
  branch_log env q b branch -> filter is_query branch = [].
Proof.
  unfold branch_log. destruct b.
  - intros (item & ->). reflexivity.
  - intros (n & _ & ->). simpl.
    rewrite (@filter_resets_log is_query false) by reflexivity. reflexivity.
Qed.

(** C5: the detector [main] builds is made of the headless session's
    client id, that session's body mapping, and exactly four pairs: the
    link lbr_iiwa_link_7 of the body named robot against the whole bodies
    named ground, cube1, cube2 and cube3.  The setup makes no distance
    query; every distance query of the loop, in any run, goes through that
    detector; a finished turn makes exactly two of them (the distances,
    then the collision flag), both with the turn's vector [q]; and in any
    run of [main] from the start, every query carries those four pairs. *)
Theorem queries_measure_link7_against_obstacles
        fuel0 (w0 w1 : W) tr0 env f1 :
  exec respond fuel0 main_setup w0 = (tr0, Done env w1 f1) ->
  col_detector env
  = mkCollisionDetector (col_id env) (collision_bodies env)
      [(mkNamedCollisionObject "robot" (Some "lbr_iiwa_link_7"),
        mkNamedCollisionObject "ground" None);
       (mkNamedCollisionObject "robot" (Some "lbr_iiwa_link_7"),
        mkNamedCollisionObject "cube1" None);
       (mkNamedCollisionObject "robot" (Some "lbr_iiwa_link_7"),
        mkNamedCollisionObject "cube2" None);
       (mkNamedCollisionObject "robot" (Some "lbr_iiwa_link_7"),
        mkNamedCollisionObject "cube3" None)] /\
  filter is_query tr0 = [] /\
  (forall fuel w,
      Forall (fun e => is_query e = true ->
                       exists q,
                         call_of e
                         = Some (query_distances (col_detector env) q))
             (fst (exec respond fuel (main_loop env) w))) /\
  (forall fuel w tr u w' f,
      exec respond fuel (loop_body env) w = (tr, Done u w' f) ->
      exists q d ds,
        List.length q = 7%nat /\
        filter is_query tr
        = [Returned (query_distances (col_detector env) q) d;
           Returned (query_distances (col_detector env) q) ds]) /\
  (forall fuel w,
      Forall queries_monitored_pairs (fst (exec respond fuel main w))).
Proof.
  intros Hsetup. split; [|split; [|split; [|split]]].
  - apply main_setup_done in Hsetup.
    destruct Hsetup as (gui & col & m & js & p1 & ids1 & p2 & ids2
                        & _ & _ & ->).
    reflexivity.
  - apply main_setup_done in Hsetup.
    destruct Hsetup as (gui & col & m & js & p1 & ids1 & p2 & ids2
                        & Hjs & -> & _).
    destruct js as [|? [|? [|? [|? [|? [|? [|? [|]]]]]]]]; try discriminate.
    reflexivity.
  - intros fuel w.
    assert (Hlines : Forall (turn_line env)
                            (fst (exec respond fuel (main_loop env) w))).
    { apply (always_forever (B := unit) (loop_body_lines respond env)). }
    eapply Forall_impl; [|exact Hlines]. intros e He Hq.
    unfold turn_line in He. unfold is_query in Hq.
    destruct (call_of e) as [[]|]; try discriminate.
    subst. eexists. reflexivity.
  - intros fuel w tr u w' f Hturn.
    destruct (turn_done respond _ _ _ _ Hsetup Hturn)
      as (js & m & q & d & margin & ds & branch & Hjs & Hq & Hps & -> & Hb).
    exists q, d, ds. split; [exact Hq|].
    apply filter_query_branch in Hb.
    destruct js as [|? [|? [|? [|? [|? [|? [|? [|]]]]]]]]; try discriminate.
    destruct q as [|? [|? [|? [|? [|? [|? [|? [|]]]]]]]]; try discriminate.
    unfold turn_log, reads_log. simpl. rewrite !filter_app, Hb. reflexivity.
  - intros fuel w. apply main_queries_monitored.
Qed.

(** C10: [update_robot_state] indexes [state] at every joint index from 0
    up to the joint count [n] the session reports for the robot, and it is
    safe precisely when [state] has at least [n] elements.  With
    [n <= len(state)], no run raises IndexError.  With [len(state) < n],
    no run returns: observed for [len(state) + 2] events or more, the run
    has failed, with IndexError right after the writes of the elements of
    [state], unless one of those writes raised first.  In [main] the vector
    has seven elements: no run of the loop raises IndexError as long as the
    GUI session reports at most seven joints for the robot. *)
Theorem update_robot_state_index_safety
        (robot client : Z) (state : list float) (w w1 : W) (n : Z) :
  respond (getNumJoints robot client) w = inr (n, w1) ->
  (n <= Z.of_nat (List.length state) ->
   forall fuel,
     Forall no_index_error
            (fst (exec respond fuel
                       (update_robot_state robot state client) w))) /\
  (Z.of_nat (List.length state) < n ->
   forall fuel,
     unfinished
       (snd (exec respond fuel (update_robot_state robot state client) w)) /\
     ((List.length state + 2 <= fuel)%nat ->
      exists exn w',
        snd (exec respond fuel (update_robot_state robot state client) w)
        = Failed exn w' /\
        ((exn = IndexError /\
          fst (exec respond fuel (update_robot_state robot state client) w)
          = Returned (getNumJoints robot client) n
            :: resets_log robot client (range n) state
            ++ [ScriptRaised IndexError]) \/
         fails_at (Returned (getNumJoints robot client) n
                   :: resets_log robot client (range n) state)
                  (fst (exec respond fuel
                             (update_robot_state robot state client) w))
                  exn))) /\
  (forall env,
      (forall w3 n3 w4,
          respond (getNumJoints (robot_id env) (gui_id env)) w3
          = inr (n3, w4) -> n3 <= 7) ->
      forall fuel' w',
        Forall no_index_error
               (fst (exec respond fuel' (main_loop env) w'))).
Proof.
  intros Hn. split; [|split].
  - intros Hle fuel. unfold update_robot_state.
    rewrite exec_bind, exec_do_call.
    destruct fuel as [|fuel]; [constructor|]. rewrite Hn. simpl.
    destruct (@joint_loop_safe _ respond robot client state n Hle fuel w1)
      as [Hsafe _].
    destruct (exec respond fuel _ w1) as [tr o]. simpl in *.
    constructor; [exact I | exact Hsafe].
  - intros Hlt fuel. unfold update_robot_state.
    rewrite exec_bind, exec_do_call.
    destruct fuel as [|fuel]; [split; [exact I | simpl; lia]|].
    rewrite Hn. simpl. unfold range.
    destruct (exec respond fuel
                (for_each (map Z.of_nat (seq 0 (Z.to_nat n)))
                   (fun joint_idx =>
                      v <- index state joint_idx ;;
                      do_call (resetJointState robot joint_idx v client)))
                w1) as [tr o] eqn:E.
    simpl. destruct o as [u w' f | exn w' | w'].
    + apply joint_loop_done in E. destruct E as [[H | H] _]; lia.
    + split; [exact I|]. intros _. exists exn, w'. split; [reflexivity|].
      destruct (joint_loop_breaks respond robot client state
                  (Z.to_nat n) 0%nat _ _ E) as [H | (_ & -> & ->)].
      * right. apply fails_at_cons. exact H.
      * left. split; reflexivity.
    + split; [exact I|]. intros Hfuel. exfalso.
      pose proof (@joint_loop_settles _ respond robot client state
                    (Z.to_nat n) 0%nat (Nat.le_0_l _)
                    (fuel - (List.length state - 0 + 1))%nat w1) as Hs.
      replace ((List.length state - 0 + 1
                + (fuel - (List.length state - 0 + 1)))%nat)
        with fuel in Hs by lia.
      rewrite E in Hs. exact Hs.
  - intros env Hjoints fuel' w'.
    assert (Hupdate : forall q, List.length q = 7%nat ->
              always respond no_index_error (fun _ => True)
                     (update_robot_state (robot_id env) q (gui_id env))).
    { intros q Hq. apply update_robot_state_safe. rewrite Hq. exact Hjoints. }
    assert (Hbody : always respond no_index_error (fun _ => True)
                           (loop_body env)).
    { walk ltac:(cbv; auto). }
    apply (always_forever (B := unit) Hbody).
Qed.

End Bounds.


(** ** The theorems on the simulators *)

Lemma steady_setup_close :
  exec Steady.respond 100 main_setup Sim.close
  = (Sim.setup_log, Done Sim.env (Sim.started Sim.close) 76).
Proof. vm_compute. reflexivity. Qed.

Lemma steady_setup_clear :
  exec Steady.respond 100 main_setup Sim.clear
  = (Sim.setup_log, Done Sim.env (Sim.started Sim.clear) 76).
Proof. vm_compute. reflexivity. Qed.

Lemma steady_turn_close :
  exec Steady.respond 100 (loop_body Sim.env) (Sim.started Sim.close)
  = (Sim.close_turn_log, Done tt (Sim.warned Sim.close) 87).
Proof. vm_compute. reflexivity. Qed.

Lemma steady_turn_clear :
  exec Steady.respond 100 (loop_body Sim.env) (Sim.started Sim.clear)
  = (Sim.clear_turn_log, Done tt (Sim.started Sim.clear) 80).
Proof. vm_compute. reflexivity. Qed.

(** [Steady] answers every call, and reports seven joints or none. *)
Lemma steady_answers_turns : answers_turns Steady.respond Sim.env.
Proof.
  split.
  - intros c w _. unfold Steady.respond.
    destruct (Sim.respond c w) as [e | [v w']]; eauto.
  - intros w n w'. unfold Steady.respond.
    destruct (Sim.respond (getNumJoints (robot_id Sim.env) (gui_id Sim.env)) w)
      as [e | [v w2]] eqn:E; intros H; inversion H; subst.
    + simpl. lia.
    + eapply sim_joints_at_most_seven. exact E.
Qed.

(** On the answering simulator, with the arm nearly touching a cube, the
    turn finishes and shows the warning without writing a joint. *)
Lemma pose_applied_unless_colliding_witness :
  (exists tr u w' f,
      exec Steady.respond (21 + 79) (loop_body Sim.env)
           (Sim.started Sim.close)
      = (tr, Done u w' f)) /\
  exists joint_items margin_item q d margin ds branch,
    user_params Sim.env = params_of margin_item joint_items /\
    Sim.close_turn_log
    = turn_log Sim.env joint_items margin_item q d margin ds branch /\
    if too_close ds margin
    then filter is_pose_write Sim.close_turn_log = [] /\
         (exists item,
            filter is_warning Sim.close_turn_log
            = [Returned warning_text item]) /\
         colour_of warning_text = red
    else filter is_warning Sim.close_turn_log = [] /\
         exists n,
           branch = Returned (getNumJoints (robot_id Sim.env)
                                           (gui_id Sim.env)) n
                    :: resets_log (robot_id Sim.env) (gui_id Sim.env)
                                  (range n) q /\
           filter is_pose_write Sim.close_turn_log
           = resets_log (robot_id Sim.env) (gui_id Sim.env) (range n) q.
Proof.
  destruct (pose_applied_unless_colliding
              Steady.respond 100 Sim.close steady_setup_close)
    as (_ & Hends & Hturn).
  split.
  - exact (Hends steady_answers_turns 79%nat (Sim.started Sim.close)).
  - exact (Hturn _ _ _ _ _ _ steady_turn_close).
Defined.

(** On the answering simulator, with the arm clear, the turn finishes, in
    the order of [turn_order]. *)
Lemma turn_order_witness :
  (exists tr u w' f,
      exec Steady.respond (21 + 79) (loop_body Sim.env)
           (Sim.started Sim.clear)
      = (tr, Done u w' f)) /\
  exists joint_items margin_item q d margin ds branch,
    user_params Sim.env = params_of margin_item joint_items /\
    List.length joint_items = 7%nat /\ List.length q = 7%nat /\
    Sim.clear_turn_log
    = reads_log joint_items q
      ++ [Returned (query_distances (col_detector Sim.env) q) d;
          Returned (readUserDebugParameter margin_item) margin;
          Returned (query_distances (col_detector Sim.env) q) ds]
      ++ branch
      ++ [Returned (print "Distance to obstacles = " d) tt;
          Returned (stepSimulation (gui_id Sim.env)) tt] /\
    branch_log Sim.env q (too_close ds margin) branch /\
    filter is_step Sim.clear_turn_log
    = [Returned (stepSimulation (gui_id Sim.env)) tt].
Proof.
  destruct (turn_order Steady.respond 100 Sim.clear steady_setup_clear)
    as (_ & Hends & Hturn).
  split.
  - exact (Hends steady_answers_turns 79%nat (Sim.started Sim.clear)).
  - exact (Hturn _ _ _ _ _ _ steady_turn_clear).
Defined.

(** On the answering simulator, with the arm clear, the turn finishes and
    has read its eight sliders. *)
Lemma turn_reads_eight_sliders_witness :
  (exists tr u w' f,
      exec Steady.respond (21 + 79) (loop_body Sim.env)
           (Sim.started Sim.clear)
      = (tr, Done u w' f)) /\
  exists joint_items margin_item q d margin ds branch,
    List.length joint_items = 7%nat /\ List.length q = 7%nat /\
    user_params Sim.env = params_of margin_item joint_items /\
    Sim.clear_turn_log
    = turn_log Sim.env joint_items margin_item q d margin ds branch /\
    filter is_slider_read Sim.clear_turn_log
    = reads_log joint_items q
      ++ [Returned (readUserDebugParameter margin_item) margin] /\
    List.length (filter is_slider_read Sim.clear_turn_log) = 8%nat.
Proof.
  destruct (turn_reads_eight_sliders
              Steady.respond 100 Sim.clear steady_setup_clear)
    as (_ & Hends & Hturn).
  split.
  - exact (Hends steady_answers_turns 79%nat (Sim.started Sim.clear)).
  - exact (Hturn _ _ _ _ _ _ steady_turn_clear).
Defined.

(** On the simulator, the detector of the setup carries the four pairs,
    and the finished turn has made its two queries through it. *)
Lemma queries_measure_link7_against_obstacles_witness :
  det_pairs (col_detector Sim.env)
  = [(mkNamedCollisionObject "robot" (Some "lbr_iiwa_link_7"),
      mkNamedCollisionObject "ground" None);
     (mkNamedCollisionObject "robot" (Some "lbr_iiwa_link_7"),
      mkNamedCollisionObject "cube1" None);
     (mkNamedCollisionObject "robot" (Some "lbr_iiwa_link_7"),
      mkNamedCollisionObject "cube2" None);
     (mkNamedCollisionObject "robot" (Some "lbr_iiwa_link_7"),
      mkNamedCollisionObject "cube3" None)] /\
  exists q d ds,
    List.length q = 7%nat /\
    filter is_query Sim.clear_turn_log
    = [Returned (query_distances (col_detector Sim.env) q) d;
       Returned (query_distances (col_detector Sim.env) q) ds].
Proof.
  destruct (queries_measure_link7_against_obstacles
              Sim.respond 100 Sim.clear sim_setup_clear)
    as (Hdet & _ & _ & Hturn & _).
  split.
  - rewrite Hdet. reflexivity.
  - exact (Hturn _ _ _ _ _ _ sim_turn_clear).
Defined.

Lemma sim_update_missing_body :
  exec Sim.respond 100 (update_robot_state 9 [] 0) Sim.unplugged
  = ([Threw (getNumJoints 9 0)
            (pybullet_error "Not connected to physics server.")],
     Failed (pybullet_error "Not connected to physics server.")
            Sim.unplugged).
Proof. vm_compute. reflexivity. Qed.

(** On the simulator without sliders, [main] fails on the first slider
    read of the loop, after a setup whose every call returned; and
    [update_robot_state] on a body that was never loaded fails on its
    first call. *)
Lemma failures_propagate_witness :
  (exists before x,
      Sim.setup_log
      ++ [Threw (readUserDebugParameter 1)
                (pybullet_error "Failed to read parameter.")]
      = before ++ [x] /\
      Forall (fun y => raises y = None) before /\
      ((exists c w0,
           x = Threw c (pybullet_error "Failed to read parameter.") /\
           Sim.respond c w0
           = inl (pybullet_error "Failed to read parameter.")) \/
       (x = ScriptRaised IndexError /\
        pybullet_error "Failed to read parameter." = IndexError))) /\
  exists n,
    fails_at (Returned (getNumJoints 9 0) n :: resets_log 9 0 (range n) [])
             [Threw (getNumJoints 9 0)
                    (pybullet_error "Not connected to physics server.")]
             (pybullet_error "Not connected to physics server.") \/
    (Z.of_nat (List.length (@nil float)) < n /\
     pybullet_error "Not connected to physics server." = IndexError /\
     [Threw (getNumJoints 9 0)
            (pybullet_error "Not connected to physics server.")]
     = Returned (getNumJoints 9 0) n
       :: resets_log 9 0 (range n) [] ++ [ScriptRaised IndexError]).
Proof.
  destruct (failures_propagate Sim.respond 100 Sim.unplugged 0 0 9 [])
    as (_ & _ & Hupdate & _ & Hmain).
  split.
  - exact (Hmain _ _ _ sim_main_unplugged).
  - exact (Hupdate _ _ _ sim_update_missing_body).
Defined.

(** On the simulator the arm has seven joints: a vector of three elements
    overruns after its three writes, and the loop's vector of seven does
    not. *)
Lemma update_robot_state_index_safety_witness :
  (exists exn w',
      snd (exec Sim.respond 100 (update_robot_state 1 Sim.short_state 0)
                (Sim.started Sim.clear))
      = Failed exn w' /\
      ((exn = IndexError /\
        fst (exec Sim.respond 100 (update_robot_state 1 Sim.short_state 0)
                  (Sim.started Sim.clear))
        = Returned (getNumJoints 1 0) 7
          :: resets_log 1 0 (range 7) Sim.short_state
          ++ [ScriptRaised IndexError]) \/
       fails_at (Returned (getNumJoints 1 0) 7
                 :: resets_log 1 0 (range 7) Sim.short_state)
                (fst (exec Sim.respond 100
                           (update_robot_state 1 Sim.short_state 0)
                           (Sim.started Sim.clear)))
                exn)) /\
  Forall no_index_error
         (fst (exec Sim.respond 100 (main_loop Sim.env)
                    (Sim.started Sim.clear))).
Proof.
  destruct (@update_robot_state_index_safety
              _ Sim.respond 1 0 Sim.short_state
              (Sim.started Sim.clear) (Sim.started Sim.clear) 7 eq_refl)
    as (_ & Hover & Hloop).
  split.
  - destruct (Hover ltac:(vm_compute; reflexivity) 100%nat) as [_ H].
    apply H. simpl. lia.
  - apply (Hloop Sim.env).
    intros w3 n3 w4. apply sim_joints_at_most_seven.
Defined.
